(** * The text-area input handler of the editor (vs/editor/browser/controller/textAreaHandler.ts)

    A shallow embedding of [TextAreaHandler], of [ClipboardEventUtils] and of
    [TextAreaWrapper], with the properties of the handler's event listeners.

    JavaScript strings are sequences of UTF-16 code units: a string is a
    [list Z], [s.length] is [length s] and [s.charCodeAt(i)] is [s !! i].
    Numbers that index strings (selection offsets, [replaceCharCnt]) are [Z].
    A [DataTransfer] is a finite map from format names to strings. *)

From stdpp Require Import base numbers option list strings gmap.

Abbreviation jsstring := (list Z) (only parsing).

(** ** Strings (vs/base/common/strings) *)

Module strings.

(** Modelled from the spec: [strings.isHighSurrogate(charCode)] is not part
    of the sources at hand; a high surrogate is a UTF-16 code unit in
    D800..DBFF. *)
Definition isHighSurrogate (charCode : Z) : bool :=
  bool_decide (55296 ≤ charCode)%Z && bool_decide (charCode ≤ 56319)%Z.

(** Modelled from the spec: [strings.commonPrefixLength] is not part of the
    sources at hand; the prefix scan starts at index 0 and stops at the
    first position where the two strings differ or one of them ends. *)
Fixpoint commonPrefixLength (a b : jsstring) : nat :=
  match a, b with
  | x :: a', y :: b' =>
      if bool_decide (x = y) then S (commonPrefixLength a' b') else 0
  | _, _ => 0
  end.

(** Modelled from the spec: [strings.commonSuffixLength] is not part of the
    sources at hand; the suffix scan runs from the end of both strings. *)
Definition commonSuffixLength (a b : jsstring) : nat :=
  commonPrefixLength (reverse a) (reverse b).

(** [s.substring(start, end)] of JavaScript: both indices are clamped to
    the string and swapped when [start > end]. *)
Definition substring (s : jsstring) (start end_ : nat) : jsstring :=
  let a := start `min` length s in
  let b := end_ `min` length s in
  take ((a `max` b) - (a `min` b)) (drop (a `min` b) s).

End strings.

(** ** Values exchanged with the editor *)

(** [ITypeData] of textAreaState.ts: what [onType] carries. *)
Record ITypeData := mkTypeData {
  text : jsstring;
  replaceCharCnt : Z
}.

(** [Range] of vs/editor/common/core/range. *)
Record Range := mkRange {
  startLineNumber : Z;
  startColumn : Z;
  endLineNumber : Z;
  endColumn : Z
}.

(** [TextAreaStrategy] of textAreaState.ts. *)
Inductive TextAreaStrategy := IENarrator | NVDA.

(** ** The native widget: [TextAreaWrapper] over the DOM text area *)

(** The part of the DOM the wrapper reads and writes: the text area's value
    and selection, whether the text area is [document.activeElement], and
    whether the platform throws when the text area is asked to take the
    focus (as IE does for a text area that is off the DOM). *)
Record HTMLTextAreaElement := mkTextArea {
  dom_value : jsstring;
  dom_selectionStart : Z;
  dom_selectionEnd : Z;
  dom_isActiveElement : bool;
  dom_focusThrows : bool
}.

Module TextAreaWrapper.

Definition getValue (ta : HTMLTextAreaElement) : jsstring := dom_value ta.

Definition setValue (reason : string) (value : jsstring)
    (ta : HTMLTextAreaElement) : HTMLTextAreaElement :=
  {| dom_value := value;
     dom_selectionStart := dom_selectionStart ta;
     dom_selectionEnd := dom_selectionEnd ta;
     dom_isActiveElement := dom_isActiveElement ta;
     dom_focusThrows := dom_focusThrows ta |}.

Definition getSelectionStart (ta : HTMLTextAreaElement) : Z :=
  dom_selectionStart ta.

Definition getSelectionEnd (ta : HTMLTextAreaElement) : Z :=
  dom_selectionEnd ta.

(** When the text area is the active element its selection is set.  When it
    is not, it is focused and then its selection is set, inside a [try]
    whose [catch] is empty: when the platform throws on [focus()] nothing
    has been changed and nothing is reported.  (The scroll positions of the
    parents, saved before and restored after, are not part of this
    model.) *)
Definition setSelectionRange (selectionStart selectionEnd : Z)
    (ta : HTMLTextAreaElement) : HTMLTextAreaElement :=
  if dom_isActiveElement ta then
    {| dom_value := dom_value ta;
       dom_selectionStart := selectionStart;
       dom_selectionEnd := selectionEnd;
       dom_isActiveElement := dom_isActiveElement ta;
       dom_focusThrows := dom_focusThrows ta |}
  else if dom_focusThrows ta then
    (* Sometimes IE throws when setting selection (e.g. textarea is off-DOM) *)
    ta
  else
    {| dom_value := dom_value ta;
       dom_selectionStart := selectionStart;
       dom_selectionEnd := selectionEnd;
       dom_isActiveElement := true;
       dom_focusThrows := dom_focusThrows ta |}.

End TextAreaWrapper.

(** ** The snapshot of the widget: the interface of [TextAreaState]

    textAreaState.ts is not part of the sources at hand.  The handler uses
    the class through the operations below; the handler is defined over any
    implementation of them. *)
Class TextAreaStateOps (T Model : Type) := {
  createTextAreaState : TextAreaStrategy → T;
  toStrategy : T → TextAreaStrategy → T;
  toEmpty : T → T;
  fromTextArea : T → HTMLTextAreaElement → T;
  fromText : T → jsstring → T;
  fromEditorSelection : T → Model → Range → T;
  resetSelection : T → T;
  deduceInput : T → ITypeData;
  updateComposition : T → ITypeData;
  applyToTextArea : T → string → HTMLTextAreaElement → bool → HTMLTextAreaElement;
  getValue : T → jsstring
}.

(** ** The snapshot as the specification describes it *)

Module InputSnapshot.

(** Modelled from the spec: the immutable snapshot ([TextAreaState]), which
    is missing from the sources: the last value known to be on the widget
    with its selection, and the value of the snapshot it was made from,
    against which it is diffed. *)
Record t := mk {
  previousValue : jsstring;
  value : jsstring;
  selectionStart : Z;
  selectionEnd : Z
}.

(** Modelled from the spec: the diff of [deduceInput] on the two values.
    The common prefix and the common suffix are found independently and
    the suffix is cut back so that the two never overlap;
    [replaceCharCnt = oldLength - commonPrefix - commonSuffix] and
    [insertedText = newValue[commonPrefix .. newLength - commonSuffix]]. *)
Definition commonPrefix (oldValue newValue : jsstring) : nat :=
  strings.commonPrefixLength oldValue newValue.

Definition commonSuffix (oldValue newValue : jsstring) : nat :=
  strings.commonSuffixLength oldValue newValue
    `min` ((length oldValue `min` length newValue) - commonPrefix oldValue newValue).

Definition diff (oldValue newValue : jsstring) : ITypeData :=
  let p := commonPrefix oldValue newValue in
  let q := commonSuffix oldValue newValue in
  {| text := strings.substring newValue p (length newValue - q);
     replaceCharCnt := Z.of_nat (length oldValue) - Z.of_nat p - Z.of_nat q |}.

(** Modelled from the spec: [deduceInput] diffs the snapshot against the
    snapshot it was read from. *)
Definition deduceInput (s : t) : ITypeData := diff (previousValue s) (value s).

(** Modelled from the spec: created at construction, empty. *)
Definition EMPTY : t :=
  {| previousValue := []; value := []; selectionStart := 0; selectionEnd := 0 |}.

(** Modelled from the spec: reset to empty, which flushes the pending
    diff state. *)
Definition toEmpty (s : t) : t := EMPTY.

(** Modelled from the spec: read from the widget. *)
Definition fromTextArea (s : t) (ta : HTMLTextAreaElement) : t :=
  {| previousValue := value s;
     value := TextAreaWrapper.getValue ta;
     selectionStart := TextAreaWrapper.getSelectionStart ta;
     selectionEnd := TextAreaWrapper.getSelectionEnd ta |}.

(** Modelled from the spec: read from a text (the composed text, or the
    text to copy, which is then selected as a whole). *)
Definition fromText (s : t) (txt : jsstring) : t :=
  {| previousValue := value s; value := txt;
     selectionStart := 0; selectionEnd := Z.of_nat (length txt) |}.

(** Modelled from the spec: the projection of the external model gives,
    for a selection, a bounded text window and the offsets of the
    selection in it. *)
Record ISimpleModel := mkModel {
  project : Range → jsstring * (Z * Z)
}.

Definition fromEditorSelection (s : t) (model : ISimpleModel) (sel : Range) : t :=
  let w := project model sel in
  {| previousValue := value s; value := w.1;
     selectionStart := w.2.1; selectionEnd := w.2.2 |}.

(** Modelled from the spec: the selection of a snapshot written to a
    widget without focus is collapsed. *)
Definition resetSelection (s : t) : t :=
  {| previousValue := previousValue s; value := value s;
     selectionStart := selectionStart s; selectionEnd := selectionStart s |}.

(** Modelled from the spec: reconciliation against the composed text is
    the same minimal insert/replace operation. *)
Definition updateComposition (s : t) : ITypeData := diff (previousValue s) (value s).

(** Modelled from the spec: writing a snapshot sets the widget's value
    and, when asked to select, the widget's selection. *)
Definition applyToTextArea (s : t) (reason : string) (ta : HTMLTextAreaElement)
    (select : bool) : HTMLTextAreaElement :=
  let ta1 := TextAreaWrapper.setValue reason (value s) ta in
  if select
  then TextAreaWrapper.setSelectionRange (selectionStart s) (selectionEnd s) ta1
  else ta1.

End InputSnapshot.

(** The snapshot of the specification implements the interface. *)
#[export] Instance InputSnapshot_ops :
    TextAreaStateOps InputSnapshot.t InputSnapshot.ISimpleModel := {|
  createTextAreaState := λ _, InputSnapshot.EMPTY;
  toStrategy := λ s _, s;
  toEmpty := InputSnapshot.toEmpty;
  fromTextArea := InputSnapshot.fromTextArea;
  fromText := InputSnapshot.fromText;
  fromEditorSelection := InputSnapshot.fromEditorSelection;
  resetSelection := InputSnapshot.resetSelection;
  deduceInput := InputSnapshot.deduceInput;
  updateComposition := InputSnapshot.updateComposition;
  applyToTextArea := InputSnapshot.applyToTextArea;
  getValue := InputSnapshot.value
|}.

(** ** Platform, host and events *)

(** The platform flags of vs/base/browser/browser the handler consults; they
    are fixed while a handler lives. *)
Record Browser := mkBrowser {
  isEdgeOrIE : bool;
  isChrome : bool;
  isIPad : bool;
  isIE : bool;
  userAgent : string
}.

(** [s.indexOf(pattern) >= 0] on the user agent. *)
Fixpoint includes (pattern s : string) : bool :=
  String.prefix pattern s
  || match s with
     | EmptyString => false
     | String _ s' => includes pattern s'
     end.

(** See https://github.com/Microsoft/monaco-editor/issues/320 *)
Definition isChromev55_v56 (browser : Browser) : bool :=
  (includes "Chrome/55." (userAgent browser) || includes "Chrome/56." (userAgent browser))
  (* Edge likes to impersonate Chrome sometimes *)
  && negb (includes "Edge/" (userAgent browser)).

(** What can be changed from outside: the [CopyOptions] object. *)
Definition CopyOptions_default : bool := false.

Inductive ReadFromTextArea := ReadFromTextArea_Type | ReadFromTextArea_Paste.

Record IPasteData := mkPasteData { paste_text : jsstring }.

Record ICompositionEvent := mkCompositionEvent {
  data : jsstring;
  locale : option string
}.

(** What [getPlainTextToCopy()] and [getHTMLToCopy()] of the host return at
    present. *)
Record ITextAreaHandlerHost := mkHost {
  getPlainTextToCopy : jsstring;
  getHTMLToCopy : jsstring
}.

(** The key codes of vs/base/common/keyCodes the handler names. *)
Inductive KeyCode := Escape | KEY_IN_COMPOSITION | OtherKey (code : Z).

#[export] Instance KeyCode_eq_dec : EqDecision KeyCode.
Proof. solve_decision. Defined.

(** A standardized keyboard event: its key, and what the listeners did to it. *)
Record IKeyboardEvent := mkKeyboardEvent {
  keyCode : KeyCode;
  propagationStopped : bool;
  key_defaultPrevented : bool
}.

(** [e.equals(keyCode)] of vs/base/browser/keyboardEvent, which is not part
    of the sources at hand: the event is for that key. *)
Definition equals (e : IKeyboardEvent) (k : KeyCode) : bool :=
  bool_decide (keyCode e = k).

Definition stopPropagation (e : IKeyboardEvent) : IKeyboardEvent :=
  {| keyCode := keyCode e; propagationStopped := true;
     key_defaultPrevented := key_defaultPrevented e |}.

Definition key_preventDefault (e : IKeyboardEvent) : IKeyboardEvent :=
  {| keyCode := keyCode e; propagationStopped := propagationStopped e;
     key_defaultPrevented := true |}.

(** A clipboard event: [e.clipboardData], absent on platforms without
    structured clipboard data, and whether [preventDefault] was called. *)
Record ClipboardEvent := mkClipboardEvent {
  clipboardData : option (gmap string jsstring);
  defaultPrevented : bool
}.

Definition preventDefault (e : ClipboardEvent) : ClipboardEvent :=
  {| clipboardData := clipboardData e; defaultPrevented := true |}.

(** [DataTransfer.getData(format)]: the empty string when the format holds
    no data. *)
Definition getData (dt : gmap string jsstring) (format : string) : jsstring :=
  default [] (dt !! format).

Definition setData (format : string) (v : jsstring) (dt : gmap string jsstring)
    : gmap string jsstring :=
  <[format := v]> dt.

(** What the emitters of the handler fire. *)
Inductive Emitted :=
| OnKeyDown (e : IKeyboardEvent)
| OnKeyUp (e : IKeyboardEvent)
| OnCut
| OnPaste (d : IPasteData)
| OnType (d : ITypeData)
| OnCompositionStart
| OnCompositionUpdate (e : ICompositionEvent)
| OnCompositionEnd.

Inductive JsError := Error (message : string).

(** ** Clipboard access: [ClipboardEventUtils]

    [window] stands for [(<any>window).clipboardData], the legacy clipboard
    of the whole document. *)
Module ClipboardEventUtils.

Definition canUseTextData (window : option (gmap string jsstring))
    (e : ClipboardEvent) : bool :=
  match clipboardData e with
  | Some _ => true
  | None => match window with Some _ => true | None => false end
  end.

(** The text read, with the event after [preventDefault], or the error
    thrown. *)
Definition getTextData (window : option (gmap string jsstring))
    (e : ClipboardEvent) : JsError + jsstring * ClipboardEvent :=
  match clipboardData e with
  | Some dt => inr (getData dt "text/plain", preventDefault e)
  | None =>
      match window with
      | Some wdt => inr (getData wdt "Text", preventDefault e)
      | None => inl (Error "ClipboardEventUtils.getTextData: Cannot use text data!")
      end
  end.

(** The event and the legacy clipboard after the write, or the error
    thrown.  [richText] is [None] for [null]. *)
Definition setTextData (window : option (gmap string jsstring))
    (e : ClipboardEvent) (text : jsstring) (richText : option jsstring)
    : JsError + ClipboardEvent * option (gmap string jsstring) :=
  match clipboardData e with
  | Some dt =>
      let dt1 := setData "text/plain" text dt in
      let dt2 := match richText with
                 | Some html => setData "text/html" html dt1
                 | None => dt1
                 end in
      inr ({| clipboardData := Some dt2; defaultPrevented := true |}, window)
  | None =>
      match window with
      | Some wdt => inr (preventDefault e, Some (setData "Text" text wdt))
      | None => inl (Error "ClipboardEventUtils.setTextData: Cannot use text data!")
      end
  end.

End ClipboardEventUtils.

(** ** The deferred cut: [RunOnceScheduler] of vs/base/common/async *)

Module RunOnceScheduler.

(** Modelled from the spec: the scheduler is missing from the sources; it
    is a deferred callback that runs at most once per firing, however many
    times it was scheduled before: scheduling again before the timer fires
    replaces the pending timer. *)
Record t := mk { isScheduled : bool }.

Definition create : t := {| isScheduled := false |}.

Definition cancel (r : t) : t := {| isScheduled := false |}.

Definition schedule (r : t) : t := {| isScheduled := true |}.

End RunOnceScheduler.

(** ** The handler *)

Section Handler.

Context {T Model : Type} `{!TextAreaStateOps T Model}.

(** The platform the handler runs on. *)
Variable browser : Browser.

(** The fields of a [TextAreaHandler], with what its listeners share with
    their surroundings: the variable [compositionLocale] of the
    constructor, the legacy clipboard of the window, the [CopyOptions]
    flag, and the events fired so far, oldest first. *)
Record TextAreaHandler := mkHandler {
  _host : ITextAreaHandlerHost;
  _textArea : HTMLTextAreaElement;
  _model : Model;
  _selection : Range;
  _hasFocus : bool;
  _asyncTriggerCut : RunOnceScheduler.t;
  _textAreaState : T;
  _isDoingComposition : bool;
  _nextCommand : ReadFromTextArea;
  compositionLocale : option string;
  window_clipboardData : option (gmap string jsstring);
  forceCopyWithSyntaxHighlighting : bool;
  emitted : list Emitted
}.

Definition set_host (v : ITextAreaHandlerHost) (s : TextAreaHandler) : TextAreaHandler :=
  mkHandler v (_textArea s) (_model s) (_selection s) (_hasFocus s)
    (_asyncTriggerCut s) (_textAreaState s) (_isDoingComposition s)
    (_nextCommand s) (compositionLocale s) (window_clipboardData s)
    (forceCopyWithSyntaxHighlighting s) (emitted s).

Definition set_textArea (v : HTMLTextAreaElement) (s : TextAreaHandler) : TextAreaHandler :=
  mkHandler (_host s) v (_model s) (_selection s) (_hasFocus s)
    (_asyncTriggerCut s) (_textAreaState s) (_isDoingComposition s)
    (_nextCommand s) (compositionLocale s) (window_clipboardData s)
    (forceCopyWithSyntaxHighlighting s) (emitted s).

Definition set_selection (v : Range) (s : TextAreaHandler) : TextAreaHandler :=
  mkHandler (_host s) (_textArea s) (_model s) v (_hasFocus s)
    (_asyncTriggerCut s) (_textAreaState s) (_isDoingComposition s)
    (_nextCommand s) (compositionLocale s) (window_clipboardData s)
    (forceCopyWithSyntaxHighlighting s) (emitted s).

Definition set_hasFocus (v : bool) (s : TextAreaHandler) : TextAreaHandler :=
  mkHandler (_host s) (_textArea s) (_model s) (_selection s) v
    (_asyncTriggerCut s) (_textAreaState s) (_isDoingComposition s)
    (_nextCommand s) (compositionLocale s) (window_clipboardData s)
    (forceCopyWithSyntaxHighlighting s) (emitted s).

Definition set_asyncTriggerCut (v : RunOnceScheduler.t) (s : TextAreaHandler) : TextAreaHandler :=
  mkHandler (_host s) (_textArea s) (_model s) (_selection s) (_hasFocus s)
    v (_textAreaState s) (_isDoingComposition s) (_nextCommand s)
    (compositionLocale s) (window_clipboardData s)
    (forceCopyWithSyntaxHighlighting s) (emitted s).

Definition set_textAreaState (v : T) (s : TextAreaHandler) : TextAreaHandler :=
  mkHandler (_host s) (_textArea s) (_model s) (_selection s) (_hasFocus s)
    (_asyncTriggerCut s) v (_isDoingComposition s) (_nextCommand s)
    (compositionLocale s) (window_clipboardData s)
    (forceCopyWithSyntaxHighlighting s) (emitted s).

Definition set_isDoingComposition (v : bool) (s : TextAreaHandler) : TextAreaHandler :=
  mkHandler (_host s) (_textArea s) (_model s) (_selection s) (_hasFocus s)
    (_asyncTriggerCut s) (_textAreaState s) v (_nextCommand s)
    (compositionLocale s) (window_clipboardData s)
    (forceCopyWithSyntaxHighlighting s) (emitted s).

Definition set_nextCommand (v : ReadFromTextArea) (s : TextAreaHandler) : TextAreaHandler :=
  mkHandler (_host s) (_textArea s) (_model s) (_selection s) (_hasFocus s)
    (_asyncTriggerCut s) (_textAreaState s) (_isDoingComposition s) v
    (compositionLocale s) (window_clipboardData s)
    (forceCopyWithSyntaxHighlighting s) (emitted s).

Definition set_compositionLocale (v : option string) (s : TextAreaHandler) : TextAreaHandler :=
  mkHandler (_host s) (_textArea s) (_model s) (_selection s) (_hasFocus s)
    (_asyncTriggerCut s) (_textAreaState s) (_isDoingComposition s)
    (_nextCommand s) v (window_clipboardData s)
    (forceCopyWithSyntaxHighlighting s) (emitted s).

Definition set_window_clipboardData (v : option (gmap string jsstring)) (s : TextAreaHandler) : TextAreaHandler :=
  mkHandler (_host s) (_textArea s) (_model s) (_selection s) (_hasFocus s)
    (_asyncTriggerCut s) (_textAreaState s) (_isDoingComposition s)
    (_nextCommand s) (compositionLocale s) v
    (forceCopyWithSyntaxHighlighting s) (emitted s).

Definition set_forceCopyWithSyntaxHighlighting (v : bool) (s : TextAreaHandler) : TextAreaHandler :=
  mkHandler (_host s) (_textArea s) (_model s) (_selection s) (_hasFocus s)
    (_asyncTriggerCut s) (_textAreaState s) (_isDoingComposition s)
    (_nextCommand s) (compositionLocale s) (window_clipboardData s) v
    (emitted s).

Definition set_emitted (v : list Emitted) (s : TextAreaHandler) : TextAreaHandler :=
  mkHandler (_host s) (_textArea s) (_model s) (_selection s) (_hasFocus s)
    (_asyncTriggerCut s) (_textAreaState s) (_isDoingComposition s)
    (_nextCommand s) (compositionLocale s) (window_clipboardData s)
    (forceCopyWithSyntaxHighlighting s) v.

(** *** Handlers as state transformers that may throw *)

Inductive Completion (A : Type) :=
| Normal (a : A) (s : TextAreaHandler)
| Throw (err : JsError) (s : TextAreaHandler).
Global Arguments Normal {A} a s.
Global Arguments Throw {A} err s.

Definition Handler (A : Type) : Type := TextAreaHandler → Completion A.

Definition stateOf {A} (c : Completion A) : TextAreaHandler :=
  match c with Normal _ s => s | Throw _ s => s end.

Definition hret {A} (a : A) : Handler A := λ s, Normal a s.

Definition hbind {A B} (m : Handler A) (k : A → Handler B) : Handler B :=
  λ s, match m s with
       | Normal a s' => k a s'
       | Throw err s' => Throw err s'
       end.

Definition this : Handler TextAreaHandler := λ s, Normal s s.

Definition assign (f : TextAreaHandler → TextAreaHandler) : Handler unit :=
  λ s, Normal tt (f s).

Definition throw {A} (err : JsError) : Handler A := λ s, Throw err s.

Definition liftResult {A} (r : JsError + A) : Handler A :=
  match r with inl err => throw err | inr a => hret a end.

(** [emitter.fire(ev)]: the listeners of the editor are outside this
    model; the event is recorded. *)
Definition fire (ev : Emitted) : Handler unit :=
  assign (λ s, set_emitted (emitted s ++ [ev]) s).

End Handler.

Arguments TextAreaHandler T Model : clear implicits.
Arguments Handler T Model A : clear implicits.
Arguments Completion T Model A : clear implicits.

Declare Scope handler_scope.
Delimit Scope handler_scope with H.
Notation "x ← m ; k" := (hbind m (λ x, k))
  (at level 20, m at level 100, k at level 200, only parsing) : handler_scope.
Notation "m ;; k" := (hbind m (λ _, k))
  (at level 100, k at level 200, only parsing, right associativity) : handler_scope.
Local Open Scope handler_scope.

(** ** The methods and the listeners of [TextAreaHandler] *)

Section Listeners.

Context {T Model : Type} `{!TextAreaStateOps T Model}.
Variable browser : Browser.

Abbreviation H := (Handler T Model).

Definition setTextAreaState (reason : string) (textAreaState : T)
    (forceFocus : bool) : H unit :=
  s ← this;
  let textAreaState :=
    if negb (_hasFocus s) then resetSelection textAreaState else textAreaState in
  assign (set_textArea
    (applyToTextArea textAreaState reason (_textArea s) (_hasFocus s || forceFocus)));;
  assign (set_textAreaState textAreaState).

(** Operations that are always executed asynchronously *)
Definition executePaste (txt : jsstring) : H unit :=
  if bool_decide (txt = []) then hret tt
  else fire (OnPaste {| paste_text := txt |}).

Definition _writePlaceholderAndSelectTextArea (reason : string)
    (forceFocus : bool) : H unit :=
  s ← this;
  if negb (_isDoingComposition s) then
    (* Do not write to the textarea if it is visible. *)
    if isIPad browser then
      (* Do not place anything in the textarea for the iPad *)
      setTextAreaState reason (toEmpty (_textAreaState s)) forceFocus
    else
      setTextAreaState reason
        (fromEditorSelection (_textAreaState s) (_model s) (_selection s)) forceFocus
  else hret tt.

Definition focusTextArea : H unit :=
  _writePlaceholderAndSelectTextArea "focusTextArea" true.

Definition setStrategy (strategy : TextAreaStrategy) : H unit :=
  s ← this;
  assign (set_textAreaState (toStrategy (_textAreaState s) strategy)).

Definition setHasFocus (isFocused : bool) : H unit :=
  s ← this;
  if bool_decide (_hasFocus s = isFocused) then
    (* no change *)
    hret tt
  else
    assign (set_hasFocus isFocused);;
    if isFocused then _writePlaceholderAndSelectTextArea "focusgain" false
    else hret tt.

Definition setCursorSelections (primary : Range) (secondary : list Range) : H unit :=
  assign (set_selection primary);;
  _writePlaceholderAndSelectTextArea "selection changed" false.

(** Clipboard operations.  The listener hands the event back as the
    clipboard calls left it. *)
Definition _ensureClipboardGetsEditorSelection (e : ClipboardEvent)
    : H ClipboardEvent :=
  s ← this;
  let whatToCopy := getPlainTextToCopy (_host s) in
  if ClipboardEventUtils.canUseTextData (window_clipboardData s) e then
    let whatHTMLToCopy : option jsstring :=
      if negb (isEdgeOrIE browser)
         && (bool_decide (Z.of_nat (length whatToCopy) < 65536)%Z
             || forceCopyWithSyntaxHighlighting s)
      then Some (getHTMLToCopy (_host s))
      else None in
    r ← liftResult
      (ClipboardEventUtils.setTextData (window_clipboardData s) e whatToCopy whatHTMLToCopy);
    assign (set_window_clipboardData r.2);;
    hret r.1
  else
    setTextAreaState "copy or cut" (fromText (_textAreaState s) whatToCopy) false;;
    hret e.

(** *** The listeners registered by the constructor *)

Definition on_keydown (e : IKeyboardEvent) : H unit :=
  s ← this;
  let e1 :=
    if _isDoingComposition s && equals e KEY_IN_COMPOSITION then
      (* Stop propagation for keyDown events if the IME is processing key input *)
      stopPropagation e
    else e in
  let e2 :=
    if equals e1 Escape then
      (* Prevent default always for `Esc`, otherwise it will generate a keypress *)
      key_preventDefault e1
    else e1 in
  fire (OnKeyDown e2).

Definition on_keyup (e : IKeyboardEvent) : H unit :=
  fire (OnKeyUp e).

Definition on_compositionstart (e : ICompositionEvent) : H unit :=
  s ← this;
  if _isDoingComposition s then hret tt
  else
    assign (set_isDoingComposition true);;
    (* In IE we cannot set .value when handling 'compositionstart' because the
       entire composition will get canceled. *)
    (if negb (isEdgeOrIE browser) then
       setTextAreaState "compositionstart" (toEmpty (_textAreaState s)) false
     else hret tt);;
    fire OnCompositionStart.

Definition on_compositionupdate (e : ICompositionEvent) : H unit :=
  if isChromev55_v56 browser then
    (* compositionupdate .data is broken in Chrome v55 and v56 *)
    assign (set_compositionLocale (locale e))
  else if isEdgeOrIE browser && bool_decide (locale e = Some "ja"%string) then
    (* Multi-part Japanese compositions reset cursor in Edge/IE *)
    s ← this;
    assign (set_textAreaState (fromTextArea (_textAreaState s) (_textArea s)));;
    s ← this;
    let typeInput := deduceInput (_textAreaState s) in
    fire (OnType typeInput);;
    fire (OnCompositionUpdate e)
  else
    s ← this;
    assign (set_textAreaState (fromText (_textAreaState s) (data e)));;
    s ← this;
    let typeInput := updateComposition (_textAreaState s) in
    fire (OnType typeInput);;
    fire (OnCompositionUpdate e).

Definition on_compositionend (e : ICompositionEvent) : H unit :=
  (if isEdgeOrIE browser && bool_decide (locale e = Some "ja"%string) then
     s ← this;
     assign (set_textAreaState (fromTextArea (_textAreaState s) (_textArea s)));;
     s ← this;
     let typeInput := deduceInput (_textAreaState s) in
     fire (OnType typeInput)
   else
     s ← this;
     assign (set_textAreaState (fromText (_textAreaState s) (data e)));;
     s ← this;
     let typeInput := updateComposition (_textAreaState s) in
     fire (OnType typeInput));;
  (* Due to isEdgeOrIE (where the textarea was not cleared initially) and
     isChrome (the textarea is not updated correctly when composition ends)
     we cannot assume the text at the end consists only of the composited text *)
  (if isEdgeOrIE browser || isChrome browser then
     s ← this;
     assign (set_textAreaState (fromTextArea (_textAreaState s) (_textArea s)))
   else hret tt);;
  s ← this;
  if negb (_isDoingComposition s) then hret tt
  else
    assign (set_isDoingComposition false);;
    fire OnCompositionEnd.

Definition on_input : H unit :=
  s ← this;
  if _isDoingComposition s then
    (* See https://github.com/Microsoft/monaco-editor/issues/320 *)
    if isChromev55_v56 browser then
      let text := TextAreaWrapper.getValue (_textArea s) in
      assign (set_textAreaState (fromText (_textAreaState s) text));;
      s ← this;
      let typeInput := updateComposition (_textAreaState s) in
      fire (OnType typeInput);;
      let e := {| locale := compositionLocale s; data := text |} in
      fire (OnCompositionUpdate e)
    else hret tt
  else
    let tempTextAreaState := fromTextArea (_textAreaState s) (_textArea s) in
    let typeInput := deduceInput tempTextAreaState in
    if bool_decide (replaceCharCnt typeInput = 0%Z)
       && bool_decide (length (text typeInput) = 1%nat)
       && from_option strings.isHighSurrogate false (text typeInput !! 0%nat)
    then
      (* Ignore invalid input but keep it around for next time *)
      hret tt
    else
      assign (set_textAreaState tempTextAreaState);;
      s ← this;
      match _nextCommand s with
      | ReadFromTextArea_Type =>
          if negb (bool_decide (text typeInput = [])) then fire (OnType typeInput)
          else hret tt
      | ReadFromTextArea_Paste =>
          executePaste (text typeInput);;
          assign (set_nextCommand ReadFromTextArea_Type)
      end.

Definition on_cut (e : ClipboardEvent) : H ClipboardEvent :=
  e' ← _ensureClipboardGetsEditorSelection e;
  s ← this;
  assign (set_asyncTriggerCut (RunOnceScheduler.schedule (_asyncTriggerCut s)));;
  hret e'.

Definition on_copy (e : ClipboardEvent) : H ClipboardEvent :=
  _ensureClipboardGetsEditorSelection e.

Definition on_paste (e : ClipboardEvent) : H ClipboardEvent :=
  s ← this;
  if ClipboardEventUtils.canUseTextData (window_clipboardData s) e then
    r ← liftResult (ClipboardEventUtils.getTextData (window_clipboardData s) e);
    executePaste r.1;;
    hret r.2
  else
    (if negb (bool_decide (TextAreaWrapper.getSelectionStart (_textArea s)
                           = TextAreaWrapper.getSelectionEnd (_textArea s))) then
       (* Clean up the textarea, to get a clean paste *)
       setTextAreaState "paste" (toEmpty (_textAreaState s)) false
     else hret tt);;
    assign (set_nextCommand ReadFromTextArea_Paste);;
    hret e.

(** Modelled from the spec: the timer of the [RunOnceScheduler] fires; the
    runner given to [_asyncTriggerCut] fires [onCut] when a run is
    pending, and nothing is pending afterwards. *)
Definition on_timeout : H unit :=
  s ← this;
  if RunOnceScheduler.isScheduled (_asyncTriggerCut s) then
    assign (set_asyncTriggerCut (RunOnceScheduler.cancel (_asyncTriggerCut s)));;
    fire OnCut
  else hret tt.

(** The constructor: the fields are initialised and the placeholder is
    written; [window] is the legacy clipboard of the document the handler
    lives in. *)
Definition constructor (host : ITextAreaHandlerHost) (strategy : TextAreaStrategy)
    (textArea : HTMLTextAreaElement) (model : Model)
    (window : option (gmap string jsstring)) : Completion T Model unit :=
  _writePlaceholderAndSelectTextArea "ctor" false
    {| _host := host;
       _textArea := textArea;
       _model := model;
       _selection := mkRange 1 1 1 1;
       _hasFocus := false;
       _asyncTriggerCut := RunOnceScheduler.create;
       _textAreaState := createTextAreaState strategy;
       _isDoingComposition := false;
       _nextCommand := ReadFromTextArea_Type;
       compositionLocale := None;
       window_clipboardData := window;
       forceCopyWithSyntaxHighlighting := CopyOptions_default;
       emitted := [] |}.

End Listeners.

(** ** The handler as a machine driven by its surroundings *)

Section Machine.

Context {T Model : Type} `{!TextAreaStateOps T Model}.
Variable browser : Browser.

(** What happens to a handler: the native events of the text area, the calls
    of the editor, the timer of the deferred cut, and what the platform and
    the host change between events. *)
Inductive NativeEvent :=
| keydown (e : IKeyboardEvent)
| keyup (e : IKeyboardEvent)
| compositionstart (e : ICompositionEvent)
| compositionupdate (e : ICompositionEvent)
| compositionend (e : ICompositionEvent)
| input
| cut (e : ClipboardEvent)
| copy (e : ClipboardEvent)
| paste (e : ClipboardEvent)
| timeout
| call_setStrategy (strategy : TextAreaStrategy)
| call_setHasFocus (isFocused : bool)
| call_setCursorSelections (primary : Range) (secondary : list Range)
| call_focusTextArea
| platform_writes (textArea : HTMLTextAreaElement)
| host_changes (host : ITextAreaHandlerHost)
| window_clipboard_changes (window : option (gmap string jsstring))
| CopyOptions_changes (force : bool).

(** An exception of a listener leaves the handler as it was when thrown. *)
Definition dispatch (ev : NativeEvent) (s : TextAreaHandler T Model)
    : TextAreaHandler T Model :=
  match ev with
  | keydown e => stateOf (on_keydown e s)
  | keyup e => stateOf (on_keyup e s)
  | compositionstart e => stateOf (on_compositionstart browser e s)
  | compositionupdate e => stateOf (on_compositionupdate browser e s)
  | compositionend e => stateOf (on_compositionend browser e s)
  | input => stateOf (on_input browser s)
  | cut e => stateOf (on_cut browser e s)
  | copy e => stateOf (on_copy browser e s)
  | paste e => stateOf (on_paste e s)
  | timeout => stateOf (on_timeout s)
  | call_setStrategy strategy => stateOf (setStrategy strategy s)
  | call_setHasFocus isFocused => stateOf (setHasFocus browser isFocused s)
  | call_setCursorSelections primary secondary =>
      stateOf (setCursorSelections browser primary secondary s)
  | call_focusTextArea => stateOf (focusTextArea browser s)
  | platform_writes textArea => set_textArea textArea s
  | host_changes host => set_host host s
  | window_clipboard_changes window => set_window_clipboardData window s
  | CopyOptions_changes force => set_forceCopyWithSyntaxHighlighting force s
  end.

Fixpoint run (evs : list NativeEvent) (s : TextAreaHandler T Model)
    : TextAreaHandler T Model :=
  match evs with
  | [] => s
  | ev :: evs' => run evs' (dispatch ev s)
  end.

Definition isCut (ev : NativeEvent) : bool :=
  match ev with cut _ => true | _ => false end.

Definition isTimeout (ev : NativeEvent) : bool :=
  match ev with timeout => true | _ => false end.

End Machine.

Arguments NativeEvent : clear implicits.

(** ** Notions the properties are stated with *)

(** Replacing the last [cnt] characters of [s] with [ins]. *)
Definition replaceLast (s : jsstring) (cnt : Z) (ins : jsstring) : jsstring :=
  take (length s - Z.to_nat cnt) s ++ ins.

(** Replacing the [cnt] characters of [s] from offset [pos] on with [ins]. *)
Definition replaceAt (s : jsstring) (pos : nat) (cnt : Z) (ins : jsstring) : jsstring :=
  take pos s ++ ins ++ drop (pos + Z.to_nat cnt) s.

(** The number of [onCut] events in a log. *)
Fixpoint countCut (log : list Emitted) : nat :=
  match log with
  | [] => 0
  | OnCut :: log' => S (countCut log')
  | _ :: log' => countCut log'
  end.

(** The composition events of a log alternate, [OnCompositionStart] first
    when [open] is [false]; the result tells whether a composition is open
    at the end of the log. *)
Fixpoint compositionBrackets (open : bool) (log : list Emitted) : option bool :=
  match log with
  | [] => Some open
  | OnCompositionStart :: log' =>
      if open then None else compositionBrackets true log'
  | OnCompositionEnd :: log' =>
      if open then compositionBrackets false log' else None
  | _ :: log' => compositionBrackets open log'
  end.

(** Modelled from the spec: what writing a snapshot to the widget means for
    the value of the widget, for any implementation of the snapshot: the
    empty snapshot holds the empty value, a snapshot of a text holds that
    text, collapsing the selection keeps the value, and applying a snapshot
    to the widget writes its value. *)
Class TextAreaStateLaws (T Model : Type) `{!TextAreaStateOps T Model} : Prop := {
  getValue_toEmpty (s : T) : getValue (toEmpty s) = [];
  getValue_fromText (s : T) (txt : jsstring) : getValue (fromText s txt) = txt;
  getValue_resetSelection (s : T) : getValue (resetSelection s) = getValue s;
  dom_value_applyToTextArea (s : T) (reason : string) (ta : HTMLTextAreaElement)
      (select : bool) :
    dom_value (applyToTextArea s reason ta select) = getValue s
}.

(** ** Handlers and events the properties are tried on *)

Definition exampleModel : InputSnapshot.ISimpleModel :=
  {| InputSnapshot.project := λ _, ([100; 111; 99]%Z, (0, 0)%Z) |}.

Definition exampleBrowser : Browser :=
  {| isEdgeOrIE := false; isChrome := false; isIPad := false; isIE := false;
     userAgent := "Mozilla/5.0 (X11; Linux x86_64; rv:52.0) Gecko/20100101 Firefox/52.0" |}.

Definition exampleHandler (state : InputSnapshot.t) (textArea : HTMLTextAreaElement)
    (composing : bool) (nextCommand : ReadFromTextArea)
    (window : option (gmap string jsstring))
    : TextAreaHandler InputSnapshot.t InputSnapshot.ISimpleModel :=
  {| _host := {| getPlainTextToCopy := [99; 117; 116]%Z; getHTMLToCopy := [60; 98; 62]%Z |};
     _textArea := textArea;
     _model := exampleModel;
     _selection := mkRange 1 1 1 1;
     _hasFocus := true;
     _asyncTriggerCut := RunOnceScheduler.create;
     _textAreaState := state;
     _isDoingComposition := composing;
     _nextCommand := nextCommand;
     compositionLocale := None;
     window_clipboardData := window;
     forceCopyWithSyntaxHighlighting := CopyOptions_default;
     emitted := [] |}.

(** "hello" *)
Definition hello : jsstring := [104; 101; 108; 108; 111]%Z.

(** A text of 65536 characters. *)
Definition plainAtThreshold : jsstring := replicate (Z.to_nat 65536) 97%Z.

(** The snapshot holds "a", the widget "ab" with both characters selected. *)
Definition idleHandler : TextAreaHandler InputSnapshot.t InputSnapshot.ISimpleModel :=
  exampleHandler (InputSnapshot.mk [] [97%Z] 1 1) (mkTextArea [97; 98]%Z 0 2 true false)
    false ReadFromTextArea_Type None.

(** The snapshot holds "a", the widget "a" followed by the high surrogate
    D83D alone. *)
Definition highSurrogateHandler
    : TextAreaHandler InputSnapshot.t InputSnapshot.ISimpleModel :=
  exampleHandler (InputSnapshot.mk [] [97%Z] 1 1) (mkTextArea [97; 55357]%Z 2 2 true false)
    false ReadFromTextArea_Type None.

Definition composingHandler : TextAreaHandler InputSnapshot.t InputSnapshot.ISimpleModel :=
  exampleHandler (InputSnapshot.mk [] [12431%Z] 0 1) (mkTextArea [12431%Z] 1 1 true false)
    true ReadFromTextArea_Type None.

(** After a paste without clipboard data: the platform has written "hello"
    to the empty widget. *)
Definition pastePendingHandler
    : TextAreaHandler InputSnapshot.t InputSnapshot.ISimpleModel :=
  exampleHandler InputSnapshot.EMPTY (mkTextArea hello 5 5 true false)
    false ReadFromTextArea_Paste None.

(** The host is about to copy [plainAtThreshold]. *)
Definition thresholdHandler
    : TextAreaHandler InputSnapshot.t InputSnapshot.ISimpleModel :=
  set_host {| getPlainTextToCopy := plainAtThreshold; getHTMLToCopy := [60; 98; 62]%Z |}
    (exampleHandler InputSnapshot.EMPTY (mkTextArea [] 0 0 true false) false
       ReadFromTextArea_Type None).

Definition structuredEvent (dt : gmap string jsstring) : ClipboardEvent :=
  {| clipboardData := Some dt; defaultPrevented := false |}.

Definition legacyEvent : ClipboardEvent :=
  {| clipboardData := None; defaultPrevented := false |}.

Definition noComposition : ICompositionEvent := {| data := []; locale := None |}.

(** ** Further notions and platforms *)


(** An [onPaste] carries a text that is not empty. *)
Definition pasteNotEmpty (ev : Emitted) : Prop :=
  match ev with
  | OnPaste d => paste_text d ≠ []
  | _ => True
  end.

(** Every [onCompositionUpdate] of the log comes directly after an [onType];
    [afterType] tells whether the log continues one that ends in [onType]. *)
Fixpoint updatesFollowType (afterType : bool) (log : list Emitted) : bool :=
  match log with
  | [] => true
  | OnCompositionUpdate _ :: log' => afterType && updatesFollowType false log'
  | OnType _ :: log' => updatesFollowType true log'
  | _ :: log' => updatesFollowType false log'
  end.

(** The calls of the editor into the handler. *)
Definition isEditorCall (ev : NativeEvent) : bool :=
  match ev with
  | call_setStrategy _ | call_setHasFocus _ | call_setCursorSelections _ _
  | call_focusTextArea => true
  | _ => false
  end.

(** The events whose listeners change [_isDoingComposition]. *)
Definition isCompositionBoundary (ev : NativeEvent) : bool :=
  match ev with
  | compositionstart _ | compositionend _ => true
  | _ => false
  end.

(** The events whose listeners assign [_nextCommand]. *)
Definition assignsNextCommand (ev : NativeEvent) : bool :=
  match ev with
  | paste _ | input => true
  | _ => false
  end.

(** The events on which the text area is not written by the handler: key
    events, input, the updates and the end of a composition, the timer, a
    change of strategy, and what happens to the host and the clipboard. *)
Definition leavesTextArea (ev : NativeEvent) : bool :=
  match ev with
  | keydown _ | keyup _ | compositionupdate _ | compositionend _ | input | timeout
  | call_setStrategy _ | host_changes _ | window_clipboard_changes _
  | CopyOptions_changes _ => true
  | _ => false
  end.


(** Chrome 55 on Windows, and Edge 15, which names Chrome in its user agent. *)
Definition chrome55Browser : Browser :=
  {| isEdgeOrIE := false; isChrome := true; isIPad := false; isIE := false;
     userAgent := "Mozilla/5.0 (Windows NT 10.0; Win64; x64) AppleWebKit/537.36 (KHTML, like Gecko) Chrome/55.0.2883.87 Safari/537.36" |}.

Definition edgeBrowser : Browser :=
  {| isEdgeOrIE := true; isChrome := false; isIPad := false; isIE := false;
     userAgent := "Mozilla/5.0 (Windows NT 10.0; Win64; x64) AppleWebKit/537.36 (KHTML, like Gecko) Chrome/55.0.2883.87 Safari/537.36 Edge/15.15063" |}.

Definition iPadBrowser : Browser :=
  {| isEdgeOrIE := false; isChrome := false; isIPad := true; isIE := false;
     userAgent := "Mozilla/5.0 (iPad; CPU OS 10_2 like Mac OS X) AppleWebKit/602.3.12 (KHTML, like Gecko) Version/10.0 Mobile/14C92 Safari/602.1" |}.

(** The composed text "wa" in hiragana. *)
Definition compositionOfWa : ICompositionEvent :=
  {| data := [12431%Z]; locale := Some "ja"%string |}.

(** * Properties *)

(** ** The diff of the snapshot of the specification *)

Section Diff.

Implicit Types a b : list Z.

Lemma commonPrefixLength_le a b :
  strings.commonPrefixLength a b ≤ length a `min` length b.
Proof.
  revert b; induction a as [|x a IH]; intros [|y b]; simpl; try lia.
  case_bool_decide; [specialize (IH b)|]; lia.
Qed.

Lemma take_commonPrefixLength a b k :
  k ≤ strings.commonPrefixLength a b → take k a = take k b.
Proof.
  revert b k; induction a as [|x a IH]; intros [|y b] k; simpl; intros Hk;
    try (replace k with 0 by lia; reflexivity).
  case_bool_decide as Hxy.
  - destruct k as [|k]; [reflexivity|]. simpl. subst y. f_equal. apply IH. lia.
  - replace k with 0 by lia. reflexivity.
Qed.

Lemma commonSuffixLength_le a b :
  strings.commonSuffixLength a b ≤ length a `min` length b.
Proof.
  unfold strings.commonSuffixLength.
  pose proof (commonPrefixLength_le (reverse a) (reverse b)) as H.
  by rewrite !length_reverse in H.
Qed.

Lemma drop_commonSuffixLength a b k :
  k ≤ strings.commonSuffixLength a b →
  drop (length a - k) a = drop (length b - k) b.
Proof.
  intros Hk. apply (take_commonPrefixLength (reverse a) (reverse b)) in Hk.
  rewrite !take_reverse in Hk. by apply (inj reverse) in Hk.
Qed.

Lemma commonPrefix_commonSuffix_le a b :
  InputSnapshot.commonPrefix a b + InputSnapshot.commonSuffix a b
  ≤ length a `min` length b.
Proof.
  unfold InputSnapshot.commonSuffix, InputSnapshot.commonPrefix.
  pose proof (commonPrefixLength_le a b). lia.
Qed.

Lemma commonPrefixLength_take a b (i j : nat) :
  strings.commonPrefixLength (take i a) (take j b)
  = strings.commonPrefixLength a b `min` (i `min` j).
Proof.
  revert b i j; induction a as [|x a IH]; intros [|y b] [|i] [|j]; simpl; try lia.
  case_bool_decide; [rewrite IH|]; lia.
Qed.

(** Cutting the suffix back so that it does not overlap the prefix is the
    same as scanning for it in what the common prefix leaves of the two
    values. *)
Lemma commonSuffix_after_prefix a b :
  InputSnapshot.commonSuffix a b
  = strings.commonSuffixLength (drop (InputSnapshot.commonPrefix a b) a)
      (drop (InputSnapshot.commonPrefix a b) b).
Proof.
  unfold InputSnapshot.commonSuffix, strings.commonSuffixLength.
  set (p := InputSnapshot.commonPrefix a b).
  rewrite <- (reverse_involutive a) at 3. rewrite <- (reverse_involutive b) at 3.
  rewrite !drop_reverse, !reverse_involutive, !length_reverse.
  rewrite commonPrefixLength_take. lia.
Qed.

Lemma take_take_drop b p q :
  p + q ≤ length b →
  take p b ++ take (length b - p - q) (drop p b) ++ drop (length b - q) b = b.
Proof.
  intros Hle. replace (length b - q) with (p + (length b - p - q)) by lia.
  rewrite <- drop_drop, take_drop. apply take_drop.
Qed.

Lemma diff_text a b :
  text (InputSnapshot.diff a b)
  = take (length b - InputSnapshot.commonPrefix a b - InputSnapshot.commonSuffix a b)
      (drop (InputSnapshot.commonPrefix a b) b).
Proof.
  pose proof (commonPrefix_commonSuffix_le a b) as Hle.
  unfold InputSnapshot.diff, strings.substring; simpl.
  set (p := InputSnapshot.commonPrefix a b) in *.
  set (q := InputSnapshot.commonSuffix a b) in *.
  replace (p `min` length b) with p by lia.
  replace ((length b - q) `min` length b) with (length b - q) by lia.
  replace (p `max` (length b - q) - p `min` (length b - q)) with (length b - p - q) by lia.
  replace (p `min` (length b - q)) with p by lia.
  reflexivity.
Qed.

Lemma diff_replaceAt a b :
  replaceAt a (InputSnapshot.commonPrefix a b)
    (replaceCharCnt (InputSnapshot.diff a b)) (text (InputSnapshot.diff a b)) = b.
Proof.
  pose proof (commonPrefix_commonSuffix_le a b) as Hle.
  rewrite diff_text. unfold replaceAt, InputSnapshot.diff; simpl.
  set (p := InputSnapshot.commonPrefix a b) in *.
  set (q := InputSnapshot.commonSuffix a b) in *.
  replace (p + Z.to_nat (Z.of_nat (length a) - Z.of_nat p - Z.of_nat q)%Z)
    with (length a - q) by lia.
  rewrite (take_commonPrefixLength a b p) by done.
  rewrite (drop_commonSuffixLength a b q)
    by (subst q; unfold InputSnapshot.commonSuffix; lia).
  apply take_take_drop. lia.
Qed.


Lemma diff_replaceLast a b :
  InputSnapshot.commonSuffix a b = 0 →
  replaceLast a (replaceCharCnt (InputSnapshot.diff a b)) (text (InputSnapshot.diff a b)) = b.
Proof.
  intros Hq. pose proof (diff_replaceAt a b) as Hat.
  pose proof (commonPrefix_commonSuffix_le a b) as Hle.
  unfold replaceAt, replaceLast in *. revert Hat.
  unfold InputSnapshot.diff; simpl. rewrite Hq in *.
  set (p := InputSnapshot.commonPrefix a b) in *.
  replace (length a - Z.to_nat (Z.of_nat (length a) - Z.of_nat p - Z.of_nat 0)%Z)
    with p by lia.
  rewrite drop_ge by lia. by rewrite app_nil_r.
Qed.

End Diff.

(** The two diffs the specification gives as examples. *)
Example diff_typing_b :
  InputSnapshot.diff [97%Z] [97%Z; 98%Z] = {| text := [98%Z]; replaceCharCnt := 0 |}.
Proof. reflexivity. Qed.

Example diff_replace_selection :
  InputSnapshot.diff [97%Z; 98%Z; 99%Z] [120%Z]
  = {| text := [120%Z]; replaceCharCnt := 3 |}.
Proof. reflexivity. Qed.

(** ** The snapshot of the specification is lawful *)

#[export] Instance InputSnapshot_laws :
  TextAreaStateLaws InputSnapshot.t InputSnapshot.ISimpleModel.
Proof.
  split; try done. intros s reason ta [|]; simpl; [|done].
  unfold InputSnapshot.applyToTextArea, TextAreaWrapper.setSelectionRange.
  simpl. by destruct (dom_isActiveElement ta), (dom_focusThrows ta).
Qed.

Lemma length_plainAtThreshold : Z.of_nat (length plainAtThreshold) = 65536%Z.
Proof. unfold plainAtThreshold. rewrite length_replicate. apply Z2Nat.id. lia. Qed.

(** ** Logs *)

Lemma compositionBrackets_app (open : bool) (l1 l2 : list Emitted) :
  compositionBrackets open (l1 ++ l2)
  = compositionBrackets open l1 ≫= λ open', compositionBrackets open' l2.
Proof.
  revert open; induction l1 as [|ev l1 IH]; intros open; [done|].
  destruct ev, open; simpl; auto.
Qed.

Lemma compositionBrackets_open_start (l2 l3 : list Emitted) (open : bool) :
  compositionBrackets true (l2 ++ OnCompositionStart :: l3) = Some open →
  OnCompositionEnd ∈ l2.
Proof.
  induction l2 as [|ev l2 IH]; simpl; [discriminate|].
  destruct ev; try discriminate; intros Hb;
    try (apply list_elem_of_further, IH, Hb).
  apply list_elem_of_here.
Qed.

Lemma compositionBrackets_no_double_start (l1 l2 l3 : list Emitted) (o open : bool) :
  compositionBrackets o (l1 ++ OnCompositionStart :: l2 ++ OnCompositionStart :: l3)
  = Some open →
  OnCompositionEnd ∈ l2.
Proof.
  rewrite compositionBrackets_app.
  destruct (compositionBrackets o l1) as [[]|]; simpl; try discriminate.
  apply compositionBrackets_open_start.
Qed.

Lemma countCut_app (l1 l2 : list Emitted) :
  countCut (l1 ++ l2) = countCut l1 + countCut l2.
Proof. induction l1 as [|[] l1 IH]; simpl; lia. Qed.

(** ** The listeners *)

Ltac unfold_handler :=
  unfold on_input, on_paste, on_cut, on_copy, on_compositionstart,
    on_compositionupdate, on_compositionend, on_keydown, on_keyup, on_timeout,
    setCursorSelections, setHasFocus, focusTextArea, setStrategy,
    _ensureClipboardGetsEditorSelection, _writePlaceholderAndSelectTextArea,
    executePaste, setTextAreaState, fire, liftResult, throw, assign, this,
    hbind, hret in *.

Ltac frame_tail :=
  simpl; repeat split; simpl; intros; try done; try congruence;
  by rewrite ?orb_true_r, ?orb_false_r.

Ltac frame_done :=
  simpl in *;
  first
    [ solve [exists []; rewrite app_nil_r; frame_tail]
    | solve [eexists; split; [rewrite <- ?app_assoc; reflexivity|]; frame_tail] ].

Section HandlerProperties.

Context {T Model : Type} `{!TextAreaStateOps T Model}.
Variable browser : Browser.
Implicit Types s : TextAreaHandler T Model.

(** What any one event does to the log, to the composition flag and to the
    deferred cut: the events fired are appended, the composition events
    among them respect the flag and leave it as the new state has it, and
    unless the timer fires no [onCut] is fired and a run is pending
    afterwards exactly when one was pending or the event is a cut. *)
Lemma dispatch_frame (ev : NativeEvent) s :
  ∃ l, emitted (dispatch browser ev s) = emitted s ++ l
       ∧ compositionBrackets (_isDoingComposition s) l
         = Some (_isDoingComposition (dispatch browser ev s))
       ∧ (isTimeout ev = false →
          countCut l = 0
          ∧ RunOnceScheduler.isScheduled (_asyncTriggerCut (dispatch browser ev s))
            = RunOnceScheduler.isScheduled (_asyncTriggerCut s) || isCut ev).
Proof.
  destruct s as [host ta model sel focus sched st composing next loc window force log].
  destruct composing, ev; simpl; unfold_handler;
    unfold ClipboardEventUtils.canUseTextData, ClipboardEventUtils.getTextData,
      ClipboardEventUtils.setTextData;
    simpl;
    repeat (case_match; simpl in *; simplify_eq);
    frame_done.
Qed.


Lemma run_frame (evs : list NativeEvent) s :
  ∃ l, emitted (run browser evs s) = emitted s ++ l
       ∧ compositionBrackets (_isDoingComposition s) l
         = Some (_isDoingComposition (run browser evs s))
       ∧ (forallb (λ ev, negb (isTimeout ev)) evs = true →
          countCut l = 0
          ∧ RunOnceScheduler.isScheduled (_asyncTriggerCut (run browser evs s))
            = RunOnceScheduler.isScheduled (_asyncTriggerCut s) || existsb isCut evs).
Proof.
  revert s; induction evs as [|ev evs IH]; intros s; simpl.
  - exists []. rewrite app_nil_r, orb_false_r. auto.
  - destruct (dispatch_frame ev s) as (l1 & Hl1 & Hb1 & Hc1).
    destruct (IH (dispatch browser ev s)) as (l2 & Hl2 & Hb2 & Hc2).
    exists (l1 ++ l2). split; [by rewrite Hl2, Hl1, app_assoc|].
    split; [by rewrite compositionBrackets_app, Hb1|].
    intros [Hev Hevs]%andb_true_iff. apply negb_true_iff in Hev.
    destruct (Hc1 Hev) as [Hn1 Hs1]. destruct (Hc2 Hevs) as [Hn2 Hs2].
    rewrite countCut_app, Hn1, Hn2, Hs2, Hs1, orb_assoc. done.
Qed.

(** The constructor leaves an idle handler that has fired nothing and waits
    for typed text. *)
Lemma constructor_idle (host : ITextAreaHandlerHost) (strategy : TextAreaStrategy)
    (textArea : HTMLTextAreaElement) (model : Model)
    (window : option (gmap string jsstring)) :
  ∃ s, constructor browser host strategy textArea model window = Normal tt s
       ∧ emitted s = []
       ∧ _isDoingComposition s = false
       ∧ _nextCommand s = ReadFromTextArea_Type
       ∧ RunOnceScheduler.isScheduled (_asyncTriggerCut s) = false.
Proof.
  unfold constructor. unfold_handler. simpl.
  destruct (isIPad browser); eexists; (split; [reflexivity|]); done.
Qed.

(** With structured clipboard data on the event, the clipboard call of copy
    and cut sets the plain text, sets the HTML when the gate is open, and
    changes nothing of the handler. *)
Lemma ensureClipboard_structured s (e : ClipboardEvent) (dt : gmap string jsstring) :
  clipboardData e = Some dt →
  let plain := getPlainTextToCopy (_host s) in
  let dt1 := setData "text/plain" plain dt in
  _ensureClipboardGetsEditorSelection browser e s
  = Normal
      {| clipboardData :=
           Some (if negb (isEdgeOrIE browser)
                    && (bool_decide (Z.of_nat (length plain) < 65536)%Z
                        || forceCopyWithSyntaxHighlighting s)
                 then setData "text/html" (getHTMLToCopy (_host s)) dt1
                 else dt1);
         defaultPrevented := true |} s.
Proof.
  intros He. unfold_handler.
  unfold ClipboardEventUtils.canUseTextData, ClipboardEventUtils.setTextData.
  rewrite He. simpl.
  destruct s as [host ta model sel focus sched st composing next loc window force log].
  simpl. by destruct (negb _ && _).
Qed.

(** C2: an input event handled while not composing whose deduced diff
    replaces nothing and inserts a single code unit that is a high surrogate
    returns with the handler exactly as it was: nothing is fired (no
    [onType], no [onPaste]) and [_textAreaState] is not committed; whatever
    the widget holds at the next input event, that event is handled as if
    the dropped one had not happened, so it diffs against the original
    snapshot. *)
Theorem input_lone_high_surrogate_is_dropped s :
  _isDoingComposition s = false →
  let d := deduceInput (fromTextArea (_textAreaState s) (_textArea s)) in
  replaceCharCnt d = 0%Z →
  (∃ c, text d = [c] ∧ strings.isHighSurrogate c = true) →
  on_input browser s = Normal tt s
  ∧ ∀ textArea,
      on_input browser (set_textArea textArea (dispatch browser input s))
      = on_input browser (set_textArea textArea s).
Proof.
  intros Hidle d Hcnt (c & Htext & Hc).
  assert (on_input browser s = Normal tt s) as Hstep.
  { unfold_handler. rewrite Hidle. fold d. rewrite Hcnt, Htext. simpl. by rewrite Hc. }
  split; [exact Hstep|]. intros textArea. simpl. by rewrite Hstep.
Qed.

(** C5: while the handler is composing, [setCursorSelections] only stores
    the primary selection, [setHasFocus] only stores the focus flag (when it
    changes), and [focusTextArea] does nothing: the widget, its value and
    its selection, and the snapshot stay as they were. *)
Theorem reseed_while_composing_is_noop s :
  _isDoingComposition s = true →
  (∀ primary secondary,
     setCursorSelections browser primary secondary s
     = Normal tt (set_selection primary s)
     ∧ _textArea (set_selection primary s) = _textArea s
     ∧ _textAreaState (set_selection primary s) = _textAreaState s)
  ∧ (∀ isFocused,
       setHasFocus browser isFocused s
       = Normal tt (if bool_decide (_hasFocus s = isFocused) then s
                    else set_hasFocus isFocused s)
       ∧ _textArea (stateOf (setHasFocus browser isFocused s)) = _textArea s
       ∧ _textAreaState (stateOf (setHasFocus browser isFocused s)) = _textAreaState s)
  ∧ focusTextArea browser s = Normal tt s.
Proof.
  intros Hc. split; [|split].
  - intros primary secondary. unfold_handler. simpl. by rewrite Hc.
  - intros isFocused. unfold_handler.
    case_bool_decide; simpl; [done|].
    destruct isFocused; simpl; rewrite ?Hc; done.
  - unfold_handler. by rewrite Hc.
Qed.

(** C10: a compositionend event received while the handler is not composing
    still performs the final reconciliation: the snapshot is replaced by the
    one read from the text of the event (from the widget on Edge or IE with
    the locale "ja"), [onType] is fired with the diff of that snapshot, and
    on Edge, IE and Chrome the snapshot is read once more from the widget.
    Nothing else is fired, so no [onCompositionEnd], nothing else of the
    handler changes, and the handler stays idle. *)
Theorem compositionend_while_idle s (e : ICompositionEvent) :
  _isDoingComposition s = false →
  let ja := isEdgeOrIE browser && bool_decide (locale e = Some "ja"%string) in
  let st1 := if ja then fromTextArea (_textAreaState s) (_textArea s)
             else fromText (_textAreaState s) (data e) in
  let d := if ja then deduceInput st1 else updateComposition st1 in
  let st2 := if isEdgeOrIE browser || isChrome browser
             then fromTextArea st1 (_textArea s) else st1 in
  ∃ s', on_compositionend browser e s = Normal tt s'
        ∧ s' = set_emitted (emitted s ++ [OnType d]) (set_textAreaState st2 s)
        ∧ emitted s' = emitted s ++ [OnType d]
        ∧ _textAreaState s' = st2
        ∧ _isDoingComposition s' = false.
Proof.
  intros Hidle. unfold_handler.
  destruct s as [host ta model sel focus sched st composing next loc window force log].
  simpl in *. subst composing.
  destruct (isEdgeOrIE browser), (bool_decide (locale e = Some "ja"%string)),
    (isChrome browser); simpl; eexists; (split; [reflexivity|]); done.
Qed.

(** C9: a compositionstart event received while the handler is composing
    returns with the handler exactly as it was: the snapshot is not reset,
    the widget is not written, the handler stays composing and nothing is
    fired.  Hence, in the log of a handler whose log and flag agree (as
    after the constructor), whatever events follow, between two
    [onCompositionStart] there is an [onCompositionEnd]. *)
Theorem compositionstart_while_composing_is_ignored :
  (∀ s (e : ICompositionEvent),
     _isDoingComposition s = true → on_compositionstart browser e s = Normal tt s)
  ∧ (∀ (evs : list NativeEvent) s,
       compositionBrackets false (emitted s) = Some (_isDoingComposition s) →
       ∀ l1 l2 l3,
         emitted (run browser evs s)
         = l1 ++ OnCompositionStart :: l2 ++ OnCompositionStart :: l3 →
         OnCompositionEnd ∈ l2).
Proof.
  split.
  - intros s e Hc. unfold_handler. by rewrite Hc.
  - intros evs s Hinv l1 l2 l3 Hlog.
    destruct (run_frame evs s) as (l & Hl & Hb & _).
    assert (compositionBrackets false (emitted (run browser evs s))
            = Some (_isDoingComposition (run browser evs s))) as Hall.
    { by rewrite Hl, compositionBrackets_app, Hinv. }
    rewrite Hlog in Hall. by eapply compositionBrackets_no_double_start.
Qed.

(** C8: reading the clipboard prefers the clipboard data of the event
    (format text/plain), falls back to the legacy clipboard of the window
    (format Text), and throws exactly when neither exists; when
    [canUseTextData] holds it returns a text, and the paste listener, which
    reads only after that check, never throws. *)
Theorem getTextData_fails_without_clipboard (window : option (gmap string jsstring))
    (e : ClipboardEvent) :
  (∀ dt, clipboardData e = Some dt →
     ClipboardEventUtils.getTextData window e
     = inr (getData dt "text/plain", preventDefault e))
  ∧ (∀ wdt, clipboardData e = None → window = Some wdt →
       ClipboardEventUtils.getTextData window e
       = inr (getData wdt "Text", preventDefault e))
  ∧ ((∃ err, ClipboardEventUtils.getTextData window e = inl err)
     ↔ clipboardData e = None ∧ window = None)
  ∧ (ClipboardEventUtils.canUseTextData window e = true →
     ∃ r, ClipboardEventUtils.getTextData window e = inr r)
  ∧ (∀ s, window_clipboardData s = window → ∃ e' s', on_paste e s = Normal e' s').
Proof.
  unfold ClipboardEventUtils.getTextData, ClipboardEventUtils.canUseTextData.
  split; [by intros dt ->|]. split; [by intros wdt -> ->|].
  split; [|split].
  - split.
    + by destruct (clipboardData e), window; intros [err ?].
    + intros [-> ->]. eauto.
  - destruct (clipboardData e), window; eauto; discriminate.
  - intros s <-. unfold_handler.
    unfold ClipboardEventUtils.getTextData, ClipboardEventUtils.canUseTextData.
    destruct (clipboardData e), (window_clipboardData s); simpl;
      repeat (case_match; simplify_eq); eauto.
Qed.

(** C7, amended: on a copy or a cut whose event carries clipboard data, the
    plain text of the host is set, and the HTML of the host is set beside it
    exactly when the platform is not Edge or IE and the plain text is
    shorter than 65536 characters or [forceCopyWithSyntaxHighlighting] is
    set; otherwise the format text/html is left as it was.  So the HTML is
    left out on Edge and IE always, and elsewhere from 65536 characters on
    unless the flag is set. *)
Theorem rich_text_is_gated_by_platform_and_size s (e : ClipboardEvent)
    (dt : gmap string jsstring) :
  clipboardData e = Some dt →
  let plain := getPlainTextToCopy (_host s) in
  let rich := negb (isEdgeOrIE browser)
              && (bool_decide (Z.of_nat (length plain) < 65536)%Z
                  || forceCopyWithSyntaxHighlighting s) in
  ∃ dt',
    on_copy browser e s = Normal {| clipboardData := Some dt'; defaultPrevented := true |} s
    ∧ on_cut browser e s
      = Normal {| clipboardData := Some dt'; defaultPrevented := true |}
          (set_asyncTriggerCut (RunOnceScheduler.schedule (_asyncTriggerCut s)) s)
    ∧ dt' !! "text/plain"%string = Some plain
    ∧ dt' !! "text/html"%string
      = if rich then Some (getHTMLToCopy (_host s)) else dt !! "text/html"%string.
Proof.
  intros He plain rich. eexists. unfold on_copy, on_cut, hbind.
  rewrite (ensureClipboard_structured s e dt He). fold plain. fold rich.
  split; [reflexivity|]. split; [reflexivity|].
  unfold setData. destruct rich; by simplify_map_eq.
Qed.

Section Laws.

Context `{!TextAreaStateLaws T Model}.

(** C6: a compositionstart event received while the handler is idle makes it
    composing and fires [onCompositionStart] once and nothing else; except
    on Edge and IE the snapshot and the widget are reset to the empty value,
    and on Edge and IE the snapshot and the widget are kept as they were. *)
Theorem compositionstart_while_idle s (e : ICompositionEvent) :
  _isDoingComposition s = false →
  ∃ s', on_compositionstart browser e s = Normal tt s'
        ∧ _isDoingComposition s' = true
        ∧ emitted s' = emitted s ++ [OnCompositionStart]
        ∧ (if isEdgeOrIE browser
           then _textAreaState s' = _textAreaState s ∧ _textArea s' = _textArea s
           else getValue (_textAreaState s') = []
                ∧ dom_value (_textArea s') = []).
Proof.
  intros Hidle. unfold on_compositionstart, hbind, this, assign. rewrite Hidle.
  destruct (isEdgeOrIE browser); simpl.
  - unfold_handler. simpl. eauto 10.
  - unfold_handler. eexists; split; [reflexivity|]. simpl.
    rewrite dom_value_applyToTextArea.
    destruct (_hasFocus s); simpl;
      rewrite ?getValue_resetSelection, ?getValue_toEmpty; done.
Qed.

(** C3: on a paste event, when clipboard text data can be used, [onPaste]
    is fired within the listener with the text read, unless the text is
    empty, and nothing else changes.  When it cannot be used, the listener
    fires nothing, sets [_nextCommand] to Paste, and empties the value of
    the widget when the selection of the widget is not empty (and leaves
    widget and snapshot alone when it is empty); [onPaste] is then fired by
    the next input event that is reconciled (not composing, not a lone high
    surrogate), with the deduced text unless that is empty, and that event
    sets [_nextCommand] back to Type. *)
Theorem paste_emits_now_or_on_next_input :
  (∀ s e, ClipboardEventUtils.canUseTextData (window_clipboardData s) e = true →
     ∃ txt e', ClipboardEventUtils.getTextData (window_clipboardData s) e = inr (txt, e')
       ∧ on_paste e s
         = Normal e' (if bool_decide (txt = []) then s
                      else set_emitted (emitted s ++ [OnPaste {| paste_text := txt |}]) s))
  ∧ (∀ s e, ClipboardEventUtils.canUseTextData (window_clipboardData s) e = false →
     ∃ s', on_paste e s = Normal e s'
       ∧ emitted s' = emitted s
       ∧ _nextCommand s' = ReadFromTextArea_Paste
       ∧ _isDoingComposition s' = _isDoingComposition s
       ∧ (if bool_decide (dom_selectionStart (_textArea s) = dom_selectionEnd (_textArea s))
          then _textArea s' = _textArea s ∧ _textAreaState s' = _textAreaState s
          else dom_value (_textArea s') = []))
  ∧ (∀ s, _isDoingComposition s = false →
     _nextCommand s = ReadFromTextArea_Paste →
     let temp := fromTextArea (_textAreaState s) (_textArea s) in
     let d := deduceInput temp in
     (bool_decide (replaceCharCnt d = 0%Z) && bool_decide (length (text d) = 1)
      && from_option strings.isHighSurrogate false (text d !! 0)) = false →
     ∃ s', on_input browser s = Normal tt s'
       ∧ emitted s' = emitted s ++ (if bool_decide (text d = []) then []
                                    else [OnPaste {| paste_text := text d |}])
       ∧ _nextCommand s' = ReadFromTextArea_Type
       ∧ _textAreaState s' = temp).
Proof.
  split; [|split].
  - intros s e Hcan. unfold on_paste, hbind, this. rewrite Hcan.
    unfold ClipboardEventUtils.canUseTextData, ClipboardEventUtils.getTextData in *.
    destruct (clipboardData e) as [dt|]; [|destruct (window_clipboardData s) as [wdt|]];
      try discriminate; (do 2 eexists; split; [reflexivity|]);
      unfold_handler; simpl; by case_bool_decide.
  - intros s e Hcan. unfold on_paste, hbind, this. rewrite Hcan.
    unfold TextAreaWrapper.getSelectionStart, TextAreaWrapper.getSelectionEnd.
    case_bool_decide; simpl.
    + unfold_handler. eexists; split; [reflexivity|]. done.
    + unfold_handler. eexists; split; [reflexivity|]. simpl.
      rewrite dom_value_applyToTextArea.
      destruct (_hasFocus s); simpl;
        rewrite ?getValue_resetSelection, ?getValue_toEmpty; done.
  - intros s Hidle Hnext temp d Hd. unfold on_input, hbind, this.
    rewrite Hidle. fold temp. fold d. rewrite Hd. unfold_handler. simpl.
    rewrite Hnext. destruct (bool_decide (text d = [])); simpl;
      (eexists; split; [reflexivity|]); simpl; rewrite ?app_nil_r; done.
Qed.


End Laws.

End HandlerProperties.

(** ** The properties at work on the snapshot of the specification *)

(** The widget holds "a" and the high surrogate D83D, the snapshot "a": the
    input event is dropped. *)
Lemma input_lone_high_surrogate_witness :
  on_input exampleBrowser highSurrogateHandler = Normal tt highSurrogateHandler.
Proof.
  refine (proj1 (input_lone_high_surrogate_is_dropped exampleBrowser
                   highSurrogateHandler eq_refl eq_refl _)).
  exists 55357%Z. split; reflexivity.
Defined.

(** A paste of "hello" with clipboard data, a paste without any clipboard,
    and the input event that follows such a paste. *)
Lemma paste_witness :
  (∃ txt e', ClipboardEventUtils.getTextData None
               (structuredEvent {[ "text/plain"%string := hello ]}) = inr (txt, e')
     ∧ on_paste (structuredEvent {[ "text/plain"%string := hello ]}) idleHandler
       = Normal e' (if bool_decide (txt = []) then idleHandler
                    else set_emitted [OnPaste {| paste_text := txt |}] idleHandler))
  ∧ (∃ s', on_paste legacyEvent idleHandler = Normal legacyEvent s'
       ∧ emitted s' = []
       ∧ _nextCommand s' = ReadFromTextArea_Paste
       ∧ _isDoingComposition s' = false
       ∧ dom_value (_textArea s') = [])
  ∧ (∃ s', on_input exampleBrowser pastePendingHandler = Normal tt s'
       ∧ emitted s' = [OnPaste {| paste_text := hello |}]
       ∧ _nextCommand s' = ReadFromTextArea_Type
       ∧ _textAreaState s'
         = fromTextArea (_textAreaState pastePendingHandler)
             (_textArea pastePendingHandler)).
Proof.
  destruct (paste_emits_now_or_on_next_input exampleBrowser) as (Hnow & Hlater & Hnext).
  split; [|split].
  - exact (Hnow idleHandler (structuredEvent {[ "text/plain"%string := hello ]}) eq_refl).
  - exact (Hlater idleHandler legacyEvent eq_refl).
  - exact (Hnext pastePendingHandler eq_refl eq_refl eq_refl).
Defined.


(** A new selection arrives during a composition. *)
Lemma reseed_while_composing_witness :
  setCursorSelections exampleBrowser (mkRange 2 3 2 5) [] composingHandler
  = Normal tt (set_selection (mkRange 2 3 2 5) composingHandler).
Proof.
  exact (proj1 (proj1 (reseed_while_composing_is_noop exampleBrowser composingHandler
                         eq_refl) (mkRange 2 3 2 5) [])).
Defined.

(** A composition starts on an idle handler, not on Edge or IE. *)
Lemma compositionstart_while_idle_witness :
  ∃ s', on_compositionstart exampleBrowser noComposition idleHandler = Normal tt s'
        ∧ _isDoingComposition s' = true
        ∧ emitted s' = [OnCompositionStart]
        ∧ InputSnapshot.value (_textAreaState s') = []
          ∧ dom_value (_textArea s') = [].
Proof.
  exact (compositionstart_while_idle exampleBrowser idleHandler noComposition eq_refl).
Defined.

(** C7, as stated, fails: at exactly 65536 characters, which does not exceed
    65536, on a platform that is not Edge or IE and with the flag unset,
    the HTML is left out. *)
Lemma rich_text_at_threshold_counterexample :
  isEdgeOrIE exampleBrowser = false
  ∧ forceCopyWithSyntaxHighlighting thresholdHandler = false
  ∧ ¬ (65536 < Z.of_nat (length (getPlainTextToCopy (_host thresholdHandler))))%Z
  ∧ ∃ dt', on_copy exampleBrowser (structuredEvent ∅) thresholdHandler
           = Normal {| clipboardData := Some dt'; defaultPrevented := true |}
               thresholdHandler
           ∧ dt' !! "text/html"%string = None.
Proof.
  split; [reflexivity|]. split; [reflexivity|]. split.
  - change (getPlainTextToCopy (_host thresholdHandler)) with plainAtThreshold.
    rewrite length_plainAtThreshold. lia.
  - eexists. unfold on_copy.
    rewrite (ensureClipboard_structured exampleBrowser thresholdHandler
               (structuredEvent ∅) ∅ eq_refl).
    change (getPlainTextToCopy (_host thresholdHandler)) with plainAtThreshold.
    rewrite length_plainAtThreshold.
    rewrite (bool_decide_eq_false_2 (65536 < 65536)%Z) by lia.
    change (negb (isEdgeOrIE exampleBrowser)
            && (false || forceCopyWithSyntaxHighlighting thresholdHandler)) with false.
    split; [reflexivity|]. unfold setData.
    rewrite lookup_insert_ne by done. apply lookup_empty.
Qed.

(** A copy of three characters with clipboard data: plain text and HTML. *)
Lemma rich_text_witness :
  ∃ dt', on_copy exampleBrowser (structuredEvent ∅) idleHandler
         = Normal {| clipboardData := Some dt'; defaultPrevented := true |} idleHandler
         ∧ dt' !! "text/plain"%string = Some [99; 117; 116]%Z
         ∧ dt' !! "text/html"%string = Some [60; 98; 62]%Z.
Proof.
  destruct (rich_text_is_gated_by_platform_and_size exampleBrowser idleHandler
              (structuredEvent ∅) ∅ eq_refl) as (dt' & Hcopy & _ & Hplain & Hhtml).
  exists dt'. split; [exact Hcopy|]. split; [exact Hplain|exact Hhtml].
Defined.

(** Reading from the legacy clipboard of the window. *)
Lemma getTextData_witness :
  ∃ r, ClipboardEventUtils.getTextData (Some {[ "Text"%string := hello ]}) legacyEvent
       = inr r.
Proof.
  destruct (getTextData_fails_without_clipboard (T := InputSnapshot.t)
              (Model := InputSnapshot.ISimpleModel)
              (Some {[ "Text"%string := hello ]}) legacyEvent) as (_ & _ & _ & Hcan & _).
  exact (Hcan eq_refl).
Defined.

(** A second compositionstart during a composition; and the log of
    compositionstart, compositionstart, compositionend, compositionstart on
    an idle handler. *)
Lemma compositionstart_while_composing_witness :
  on_compositionstart exampleBrowser noComposition composingHandler
  = Normal tt composingHandler
  ∧ OnCompositionEnd ∈ [OnType {| text := []; replaceCharCnt := 0 |}; OnCompositionEnd].
Proof.
  destruct (compositionstart_while_composing_is_ignored (T := InputSnapshot.t)
              (Model := InputSnapshot.ISimpleModel) exampleBrowser) as (Hignored & Htrace).
  split.
  - exact (Hignored composingHandler noComposition eq_refl).
  - exact (Htrace
             [compositionstart noComposition; compositionstart noComposition;
              compositionend noComposition; compositionstart noComposition]
             idleHandler eq_refl []
             [OnType {| text := []; replaceCharCnt := 0 |}; OnCompositionEnd] [] eq_refl).
Defined.

(** A compositionend event arrives at an idle handler. *)
Lemma compositionend_while_idle_witness :
  ∃ s', on_compositionend exampleBrowser {| data := [12431%Z]; locale := None |} idleHandler
        = Normal tt s'
        ∧ emitted s' = [OnType {| text := [12431%Z]; replaceCharCnt := 1 |}]
        ∧ _textAreaState s' = InputSnapshot.mk [97%Z] [12431%Z] 0 1
        ∧ _isDoingComposition s' = false.
Proof.
  destruct (compositionend_while_idle exampleBrowser idleHandler
              {| data := [12431%Z]; locale := None |} eq_refl)
    as (s' & Hend & _ & Hlog & Hstate & Hidle).
  exists s'. split; [exact Hend|]. split; [exact Hlog|]. split; [exact Hstate|exact Hidle].
Defined.

(** ** Further properties of the clipboard calls and of the listeners *)

Lemma updatesFollowType_mono (log : list Emitted) :
  updatesFollowType false log = true → updatesFollowType true log = true.
Proof. destruct log as [|[] log]; simpl; try done. Qed.

Lemma updatesFollowType_app (b : bool) (l1 l2 : list Emitted) :
  updatesFollowType b l1 = true → updatesFollowType false l2 = true →
  updatesFollowType b (l1 ++ l2) = true.
Proof.
  revert b; induction l1 as [|ev l1 IH]; intros b H1 H2; simpl in *.
  - destruct b; [by apply updatesFollowType_mono|done].
  - destruct ev; simpl in *; try (by apply IH).
    apply andb_true_iff in H1 as [-> H1]. simpl. by apply IH.
Qed.


Lemma prefix_append (p b : string) : String.prefix p (p +:+ b) = true.
Proof.
  induction p as [|c p IH]; [by destruct b|].
  change (String c p +:+ b) with (String c (p +:+ b)). simpl.
  destruct (Ascii.ascii_dec c c); [exact IH|congruence].
Qed.

Lemma includes_prefix (p s : string) : String.prefix p s = true → includes p s = true.
Proof. destruct s; simpl; by intros ->. Qed.

Lemma includes_append (p a b : string) : includes p (a +:+ (p +:+ b)) = true.
Proof.
  induction a as [|c a IH].
  - change ("" +:+ (p +:+ b)) with (p +:+ b).
    apply includes_prefix, prefix_append.
  - change (String c a +:+ (p +:+ b)) with (String c (a +:+ (p +:+ b))).
    simpl. rewrite IH. apply orb_true_r.
Qed.

(** X16: a user agent that contains "Edge/" is never taken for Chrome 55 or
    56, whatever else it contains (Edge names Chrome in its user agent); a
    user agent without "Edge/" that contains "Chrome/55." or "Chrome/56."
    is. *)
Theorem isChromev55_v56_excludes_edge (browser : Browser) (a b : string) :
  (userAgent browser = a +:+ ("Edge/" +:+ b) → isChromev55_v56 browser = false)
  ∧ (includes "Edge/" (userAgent browser) = false →
     userAgent browser = a +:+ ("Chrome/55." +:+ b)
     ∨ userAgent browser = a +:+ ("Chrome/56." +:+ b) →
     isChromev55_v56 browser = true).
Proof.
  unfold isChromev55_v56. split.
  - intros ->. rewrite (includes_append "Edge/"). simpl. apply andb_false_r.
  - intros -> [-> | ->].
    + by rewrite (includes_append "Chrome/55.").
    + rewrite (includes_append "Chrome/56."). by rewrite orb_true_r.
Qed.

Section ClipboardProperties.

Implicit Types (window : option (gmap string jsstring)) (e : ClipboardEvent).

(** X1: what [setTextData] wrote, [getTextData] reads back: after a
    successful write of [text], with or without rich text, reading with the
    event and the legacy clipboard the write left returns [text], and the
    event has its default prevented. *)
Theorem setTextData_getTextData window e (text : jsstring) (richText : option jsstring)
    e' window' :
  ClipboardEventUtils.setTextData window e text richText = inr (e', window') →
  ClipboardEventUtils.getTextData window' e' = inr (text, e')
  ∧ defaultPrevented e' = true.
Proof.
  unfold ClipboardEventUtils.setTextData, ClipboardEventUtils.getTextData, setData, getData,
    preventDefault.
  destruct (clipboardData e) as [dt|] eqn:He; [|destruct window as [wdt|]];
    intros Hset; simplify_eq; simpl.
  - split; [|done]. destruct richText; by simplify_map_eq.
  - split; [|done]. by simplify_map_eq.
Qed.

(** X2: [setTextData] throws exactly when [canUseTextData] is false.  With
    clipboard data on the event it sets text/plain, sets text/html only when
    a rich text is given, keeps every other format, prevents the default and
    leaves the legacy clipboard of the window alone, even when there is one;
    with the legacy clipboard only it sets the format Text there and drops
    the rich text. *)
Theorem setTextData_fails_without_clipboard window e (text : jsstring)
    (richText : option jsstring) :
  ((∃ err, ClipboardEventUtils.setTextData window e text richText = inl err)
   ↔ ClipboardEventUtils.canUseTextData window e = false)
  ∧ (∀ dt, clipboardData e = Some dt →
       ∃ dt', ClipboardEventUtils.setTextData window e text richText
              = inr ({| clipboardData := Some dt'; defaultPrevented := true |}, window)
              ∧ dt' !! "text/plain"%string = Some text
              ∧ dt' !! "text/html"%string
                = match richText with Some html => Some html | None => dt !! "text/html"%string end
              ∧ ∀ format, format ≠ "text/plain"%string → format ≠ "text/html"%string →
                          dt' !! format = dt !! format)
  ∧ (∀ wdt, clipboardData e = None → window = Some wdt →
       ClipboardEventUtils.setTextData window e text richText
       = inr (preventDefault e, Some (<["Text"%string := text]> wdt))).
Proof.
  unfold ClipboardEventUtils.setTextData, ClipboardEventUtils.canUseTextData, setData.
  split; [|split].
  - destruct (clipboardData e), window; split; try done; try (by intros [? ?]); eauto.
  - intros dt ->. eexists; split; [reflexivity|].
    destruct richText; repeat split; intros; by simplify_map_eq.
  - by intros wdt -> ->.
Qed.

End ClipboardProperties.

Section MoreHandlerProperties.

Context {T Model : Type} `{!TextAreaStateOps T Model}.
Variable browser : Browser.
Implicit Types s : TextAreaHandler T Model.

(** X3: the copy and the cut listener never throw.  A cut does what a copy
    does and then schedules the deferred [onCut]; a copy fires nothing; the
    default of the event is prevented by them exactly when a clipboard could
    be used, so that without one the platform goes on to copy what the text
    area holds. *)
Theorem cut_is_copy_then_schedule s (e : ClipboardEvent) :
  ∃ e' s1,
    on_copy browser e s = Normal e' s1
    ∧ on_cut browser e s
      = Normal e' (set_asyncTriggerCut (RunOnceScheduler.schedule (_asyncTriggerCut s1)) s1)
    ∧ emitted s1 = emitted s
    ∧ defaultPrevented e'
      = ClipboardEventUtils.canUseTextData (window_clipboardData s) e || defaultPrevented e.
Proof.
  unfold on_cut, on_copy, hbind, this, assign, hret.
  destruct (_ensureClipboardGetsEditorSelection browser e s) as [e' s1|err s1] eqn:Hens.
  - exists e', s1. split; [done|]. split; [done|].
    revert Hens. unfold_handler.
    unfold ClipboardEventUtils.canUseTextData, ClipboardEventUtils.setTextData.
    destruct (clipboardData e), (window_clipboardData s); simpl;
      intros; simplify_eq; done.
  - exfalso. revert Hens. unfold_handler.
    unfold ClipboardEventUtils.canUseTextData, ClipboardEventUtils.setTextData.
    destruct (clipboardData e), (window_clipboardData s); simpl; intros; simplify_eq.
Qed.

(** X4: a copy followed by a paste of the same event: when a clipboard can
    be used and the plain text of the host is not empty, the paste fires
    [onPaste] with exactly that plain text, whatever rich text was copied
    beside it. *)
Theorem copy_then_paste s (e : ClipboardEvent) :
  ClipboardEventUtils.canUseTextData (window_clipboardData s) e = true →
  getPlainTextToCopy (_host s) ≠ [] →
  ∃ e' s1,
    on_copy browser e s = Normal e' s1
    ∧ on_paste e' s1
      = Normal e' (set_emitted
                     (emitted s ++ [OnPaste {| paste_text := getPlainTextToCopy (_host s) |}])
                     s1).
Proof.
  intros Hcan Hne. unfold on_copy, on_paste. unfold_handler. rewrite Hcan. revert Hcan.
  unfold ClipboardEventUtils.canUseTextData, ClipboardEventUtils.setTextData,
    ClipboardEventUtils.getTextData, getData, setData, preventDefault.
  destruct s as [host ta model sel focus sched st composing next loc window force log].
  simpl in *.
  destruct (clipboardData e) as [dt|] eqn:He; [|destruct window as [wdt|]];
    try discriminate; intros _; simpl.
  - do 2 eexists; split; [reflexivity|]. simpl.
    destruct (negb _ && _); simplify_map_eq; simpl;
      rewrite bool_decide_eq_false_2 by done; done.
  - do 2 eexists; split; [reflexivity|]. simpl. simplify_map_eq. simpl.
    rewrite bool_decide_eq_false_2 by done. done.
Qed.


(** X5: an input event on an idle handler that expects typed text, when
    the diff is not a lone high surrogate: the snapshot read from the widget
    is committed, [onType] is fired with the diff when its text is not
    empty, and nothing is fired when the text is empty, even if characters
    were replaced; [onPaste] is not fired and [_nextCommand] stays. *)
Theorem input_typed_text s :
  _isDoingComposition s = false →
  _nextCommand s = ReadFromTextArea_Type →
  let temp := fromTextArea (_textAreaState s) (_textArea s) in
  let d := deduceInput temp in
  (bool_decide (replaceCharCnt d = 0%Z) && bool_decide (length (text d) = 1)
   && from_option strings.isHighSurrogate false (text d !! 0)) = false →
  on_input browser s
  = Normal tt (if bool_decide (text d = []) then set_textAreaState temp s
               else set_emitted (emitted s ++ [OnType d]) (set_textAreaState temp s)).
Proof.
  intros Hidle Hnext temp d Hd. unfold on_input, hbind, this.
  rewrite Hidle. fold temp. fold d. rewrite Hd. unfold_handler. simpl.
  rewrite Hnext. by destruct (bool_decide (text d = [])).
Qed.

(** X6: an input event during a composition is ignored, the handler stays
    exactly as it was, except on Chrome 55 and 56, where the value of the
    widget is taken as the composed text: [onType] is fired for it and then
    [onCompositionUpdate] with that value and the locale remembered from the
    last compositionupdate event. *)
Theorem input_while_composing s :
  _isDoingComposition s = true →
  if isChromev55_v56 browser then
    let text := dom_value (_textArea s) in
    let st := fromText (_textAreaState s) text in
    on_input browser s
    = Normal tt
        (set_emitted
           (emitted s ++ [OnType (updateComposition st);
                          OnCompositionUpdate {| data := text;
                                                 locale := compositionLocale s |}])
           (set_textAreaState st s))
  else on_input browser s = Normal tt s.
Proof.
  intros Hc. unfold_handler. rewrite Hc.
  destruct (isChromev55_v56 browser); [|done].
  unfold TextAreaWrapper.getValue. simpl. by rewrite <- app_assoc.
Qed.

(** X7: on Chrome 55 and 56 a compositionupdate event only remembers the
    locale of the event: nothing is fired and the snapshot is not touched.
    The input event that follows it during a composition fires [onType] and
    then [onCompositionUpdate] with the value of the widget and that
    locale. *)
Theorem compositionupdate_chrome55_56 s (e : ICompositionEvent) :
  isChromev55_v56 browser = true →
  on_compositionupdate browser e s = Normal tt (set_compositionLocale (locale e) s)
  ∧ (_isDoingComposition s = true →
     ∃ d s',
       on_input browser (stateOf (on_compositionupdate browser e s)) = Normal tt s'
       ∧ emitted s'
         = emitted s ++ [OnType d;
                         OnCompositionUpdate {| data := dom_value (_textArea s);
                                                locale := locale e |}]).
Proof.
  intros Hchrome.
  assert (on_compositionupdate browser e s
          = Normal tt (set_compositionLocale (locale e) s)) as Hup.
  { unfold_handler. by rewrite Hchrome. }
  split; [exact Hup|]. intros Hc. rewrite Hup. simpl.
  unfold_handler. simpl. rewrite Hc, Hchrome. simpl.
  do 2 eexists; split; [reflexivity|]. simpl. by rewrite <- app_assoc.
Qed.

(** X8: a compositionend event during a composition fires [onType] with
    the final diff and then [onCompositionEnd], and leaves the handler idle;
    on Edge, IE and Chrome the snapshot is read once more from the widget
    after the diff was taken. *)
Theorem compositionend_while_composing s (e : ICompositionEvent) :
  _isDoingComposition s = true →
  let ja := isEdgeOrIE browser && bool_decide (locale e = Some "ja"%string) in
  let st1 := if ja then fromTextArea (_textAreaState s) (_textArea s)
             else fromText (_textAreaState s) (data e) in
  let d := if ja then deduceInput st1 else updateComposition st1 in
  let st2 := if isEdgeOrIE browser || isChrome browser
             then fromTextArea st1 (_textArea s) else st1 in
  on_compositionend browser e s
  = Normal tt (set_emitted (emitted s ++ [OnType d; OnCompositionEnd])
                 (set_isDoingComposition false (set_textAreaState st2 s))).
Proof.
  intros Hc. unfold_handler.
  destruct s as [host ta model sel focus sched st composing next loc window force log].
  simpl in *. subst composing.
  destruct (isEdgeOrIE browser), (bool_decide (locale e = Some "ja"%string)),
    (isChrome browser); simpl; by rewrite <- app_assoc.
Qed.

(** X9: compositionstart, compositionupdate and compositionend on an idle
    handler, not on Chrome 55 or 56: exactly [onCompositionStart], [onType],
    [onCompositionUpdate] with the event of the update, [onType] and
    [onCompositionEnd] are fired, in this order, and the handler is idle
    again. *)
Theorem composition_lifecycle s (e0 e1 e2 : ICompositionEvent) :
  isChromev55_v56 browser = false →
  _isDoingComposition s = false →
  ∃ d1 d2,
    emitted (run browser [compositionstart e0; compositionupdate e1; compositionend e2] s)
    = emitted s ++ [OnCompositionStart; OnType d1; OnCompositionUpdate e1;
                    OnType d2; OnCompositionEnd]
    ∧ _isDoingComposition
        (run browser [compositionstart e0; compositionupdate e1; compositionend e2] s)
      = false.
Proof.
  intros Hchrome Hidle.
  destruct s as [host ta model sel focus sched st composing next loc window force log].
  simpl in *. subst composing. unfold_handler. rewrite Hchrome. simpl.
  destruct (isEdgeOrIE browser), (bool_decide (locale e1 = Some "ja"%string)),
    (bool_decide (locale e2 = Some "ja"%string)), (isChrome browser); simpl;
    do 2 eexists; (split; [|reflexivity]); rewrite <- !app_assoc; reflexivity.
Qed.


Ltac emits_tail :=
  simpl; repeat split; simpl; try done;
  repeat (constructor; simpl; try done).

(** What any one event adds to the log: no [onPaste] with an empty text,
    and no [onCompositionUpdate] that is not directly after an [onType]. *)
Lemma dispatch_emits (ev : NativeEvent) s :
  ∃ l, emitted (dispatch browser ev s) = emitted s ++ l
       ∧ Forall pasteNotEmpty l
       ∧ updatesFollowType false l = true.
Proof.
  destruct s as [host ta model sel focus sched st composing next loc window force log].
  destruct ev; simpl; unfold_handler;
    unfold ClipboardEventUtils.canUseTextData, ClipboardEventUtils.getTextData,
      ClipboardEventUtils.setTextData;
    simpl;
    repeat (case_match; simpl in *; simplify_eq);
    repeat match goal with
           | H : bool_decide _ = false |- _ => apply bool_decide_eq_false in H
           end;
    first
      [ solve [exists []; rewrite app_nil_r; emits_tail]
      | solve [eexists; split; [rewrite <- ?app_assoc; reflexivity|]; emits_tail] ].
Qed.

(** X10: [onPaste] is never fired with an empty text: whatever events
    arrive, if no [onPaste] of the log was empty before, none is after. *)
Theorem paste_is_never_empty (evs : list NativeEvent) s :
  Forall pasteNotEmpty (emitted s) →
  Forall pasteNotEmpty (emitted (run browser evs s)).
Proof.
  revert s; induction evs as [|ev evs IH]; intros s Hs; simpl; [done|].
  apply IH. destruct (dispatch_emits ev s) as (l & -> & Hl & _).
  by apply Forall_app.
Qed.

(** X11: every [onCompositionUpdate] is fired directly after an [onType]:
    whatever events arrive, a log in which this holds keeps it. *)
Theorem composition_update_follows_type (evs : list NativeEvent) s :
  updatesFollowType false (emitted s) = true →
  updatesFollowType false (emitted (run browser evs s)) = true.
Proof.
  revert s; induction evs as [|ev evs IH]; intros s Hs; simpl; [done|].
  apply IH. destruct (dispatch_emits ev s) as (l & -> & _ & Hl).
  by apply updatesFollowType_app.
Qed.

(** X12: for a handler made by the constructor, after any events, the
    composition events of the log alternate, starting with
    [onCompositionStart], and the handler is composing exactly when the last
    of them is an [onCompositionStart]; so [onCompositionEnd] is never fired
    without a composition that was started and not yet ended. *)
Theorem log_tells_composition (host : ITextAreaHandlerHost) (strategy : TextAreaStrategy)
    (textArea : HTMLTextAreaElement) (model : Model)
    (window : option (gmap string jsstring)) (evs : list NativeEvent) :
  ∃ s0, constructor browser host strategy textArea model window = Normal tt s0
        ∧ compositionBrackets false (emitted (run browser evs s0))
          = Some (_isDoingComposition (run browser evs s0)).
Proof.
  destruct (constructor_idle browser host strategy textArea model window)
    as (s0 & Hs0 & Hlog & Hidle & _).
  exists s0. split; [exact Hs0|].
  destruct (run_frame browser evs s0) as (l & Hl & Hb & _).
  by rewrite Hl, Hlog, <- Hb, Hidle.
Qed.

(** What one event leaves alone. *)
Lemma dispatch_fields (ev : NativeEvent) s :
  (isCompositionBoundary ev = false →
   _isDoingComposition (dispatch browser ev s) = _isDoingComposition s)
  ∧ (assignsNextCommand ev = false →
     _nextCommand (dispatch browser ev s) = _nextCommand s)
  ∧ (leavesTextArea ev = true → _textArea (dispatch browser ev s) = _textArea s)
  ∧ (isEditorCall ev = true →
     emitted (dispatch browser ev s) = emitted s
     ∧ _asyncTriggerCut (dispatch browser ev s) = _asyncTriggerCut s
     ∧ window_clipboardData (dispatch browser ev s) = window_clipboardData s)
  ∧ _model (dispatch browser ev s) = _model s.
Proof.
  destruct s as [host ta model sel focus sched st composing next loc window force log].
  destruct ev; simpl; unfold_handler;
    unfold ClipboardEventUtils.canUseTextData, ClipboardEventUtils.getTextData,
      ClipboardEventUtils.setTextData;
    simpl;
    repeat (case_match; simpl in *; simplify_eq);
    repeat split; intros; simpl; done.
Qed.

(** X13: what the listeners never do, over any sequence of events.  Only
    compositionstart and compositionend change [_isDoingComposition]; only
    paste and input assign [_nextCommand]; key events, input,
    compositionupdate, compositionend, the timer and a change of strategy
    never write the text area; the calls of the editor ([setStrategy],
    [setHasFocus], [setCursorSelections], [focusTextArea]) never fire an
    event, never schedule a cut and never write a clipboard; and the model
    is never replaced. *)
Theorem handler_frame (evs : list NativeEvent) s :
  (forallb (λ ev, negb (isCompositionBoundary ev)) evs = true →
   _isDoingComposition (run browser evs s) = _isDoingComposition s)
  ∧ (forallb (λ ev, negb (assignsNextCommand ev)) evs = true →
     _nextCommand (run browser evs s) = _nextCommand s)
  ∧ (forallb leavesTextArea evs = true → _textArea (run browser evs s) = _textArea s)
  ∧ (forallb isEditorCall evs = true →
     emitted (run browser evs s) = emitted s
     ∧ _asyncTriggerCut (run browser evs s) = _asyncTriggerCut s
     ∧ window_clipboardData (run browser evs s) = window_clipboardData s)
  ∧ _model (run browser evs s) = _model s.
Proof.
  revert s; induction evs as [|ev evs IH]; intros s; simpl; [done|].
  destruct (dispatch_fields ev s) as (Hc & Hn & Ht & He & Hm).
  destruct (IH (dispatch browser ev s)) as (IHc & IHn & IHt & IHe & IHm).
  split; [|split; [|split; [|split]]].
  - intros [Hev Hevs]%andb_true_iff. apply negb_true_iff in Hev.
    by rewrite IHc, Hc.
  - intros [Hev Hevs]%andb_true_iff. apply negb_true_iff in Hev.
    by rewrite IHn, Hn.
  - intros [Hev Hevs]%andb_true_iff. by rewrite IHt, Ht.
  - intros [Hev Hevs]%andb_true_iff.
    destruct (He Hev) as (He1 & He2 & He3). destruct (IHe Hevs) as (-> & -> & ->).
    done.
  - by rewrite IHm.
Qed.

(** X14: [setHasFocus] stores the flag, and calling it again with the same
    flag changes nothing at all; losing the focus changes nothing but the
    flag: the widget and the snapshot are not written. *)
Theorem setHasFocus_idempotent s (isFocused : bool) :
  ∃ s', setHasFocus browser isFocused s = Normal tt s'
        ∧ _hasFocus s' = isFocused
        ∧ setHasFocus browser isFocused s' = Normal tt s'
        ∧ (isFocused = false →
           s' = if bool_decide (_hasFocus s = false) then s else set_hasFocus false s).
Proof.
  destruct s as [host ta model sel focus sched st composing next loc window force log].
  unfold_handler. simpl.
  destruct focus, isFocused, composing, (isIPad browser); simpl;
    eexists; (split; [reflexivity|]); simpl; repeat split; done.
Qed.

(** X15: a keydown event fires exactly one [onKeyDown], for the same key,
    and changes nothing else of the handler; the default of the event is
    prevented by the handler exactly for Escape, and its propagation is
    stopped exactly for the key KEY_IN_COMPOSITION during a composition. *)
Theorem keydown_fires_once s (e : IKeyboardEvent) :
  ∃ e', on_keydown e s = Normal tt (set_emitted (emitted s ++ [OnKeyDown e']) s)
        ∧ keyCode e' = keyCode e
        ∧ key_defaultPrevented e'
          = key_defaultPrevented e || bool_decide (keyCode e = Escape)
        ∧ propagationStopped e'
          = propagationStopped e
            || (_isDoingComposition s && bool_decide (keyCode e = KEY_IN_COMPOSITION)).
Proof.
  unfold on_keydown, hbind, this, fire, assign, equals, stopPropagation, key_preventDefault.
  eexists; split; [reflexivity|].
  destruct (_isDoingComposition s), e as [k p d]; simpl;
    repeat case_bool_decide; simpl; simplify_eq;
    rewrite ?orb_true_r, ?orb_false_r; done.
Qed.


Section MoreLaws.

Context `{!TextAreaStateLaws T Model}.

(** X17: [setCursorSelections] on an idle handler stores the primary
    selection, fires nothing, and writes the widget so that its value is the
    value of the snapshot the handler keeps; on the iPad that value is
    empty.  (With the laws of the snapshot: applying a snapshot writes its
    value.) *)
Theorem reseed_while_idle s (primary : Range) (secondary : list Range) :
  _isDoingComposition s = false →
  ∃ s', setCursorSelections browser primary secondary s = Normal tt s'
        ∧ _selection s' = primary
        ∧ emitted s' = emitted s
        ∧ dom_value (_textArea s') = getValue (_textAreaState s')
        ∧ (isIPad browser = true → dom_value (_textArea s') = []).
Proof.
  intros Hidle. unfold_handler. simpl. rewrite Hidle. simpl.
  destruct (isIPad browser); (eexists; split; [reflexivity|]); simpl;
    rewrite !dom_value_applyToTextArea;
    destruct (_hasFocus s); simpl;
    rewrite ?getValue_resetSelection, ?getValue_toEmpty; repeat split; done.
Qed.

End MoreLaws.

End MoreHandlerProperties.

Lemma isChromev55_v56_witness :
  isChromev55_v56 edgeBrowser = false ∧ isChromev55_v56 chrome55Browser = true.
Proof.
  split.
  - exact (proj1 (isChromev55_v56_excludes_edge edgeBrowser
             "Mozilla/5.0 (Windows NT 10.0; Win64; x64) AppleWebKit/537.36 (KHTML, like Gecko) Chrome/55.0.2883.87 Safari/537.36 "
             "15.15063") eq_refl).
  - exact (proj2 (isChromev55_v56_excludes_edge chrome55Browser
             "Mozilla/5.0 (Windows NT 10.0; Win64; x64) AppleWebKit/537.36 (KHTML, like Gecko) "
             "0.2883.87 Safari/537.36") eq_refl (or_introl eq_refl)).
Defined.

Lemma setTextData_getTextData_witness :
  let e' := {| clipboardData :=
                 Some (setData "text/html" [60; 98; 62]%Z (setData "text/plain" hello ∅));
               defaultPrevented := true |} in
  ClipboardEventUtils.getTextData None e' = inr (hello, e')
  ∧ defaultPrevented e' = true.
Proof.
  intros e'.
  exact (setTextData_getTextData None (structuredEvent ∅) hello (Some [60; 98; 62]%Z)
           e' None eq_refl).
Defined.

Lemma setTextData_legacy_witness :
  ClipboardEventUtils.setTextData (Some ∅) legacyEvent hello (Some [60; 98; 62]%Z)
  = inr (preventDefault legacyEvent, Some (<["Text"%string := hello]> ∅)).
Proof.
  exact (proj2 (proj2 (setTextData_fails_without_clipboard (Some ∅) legacyEvent hello
                         (Some [60; 98; 62]%Z))) ∅ eq_refl eq_refl).
Defined.

Lemma copy_then_paste_witness :
  ∃ e' s1,
    on_copy exampleBrowser (structuredEvent ∅) idleHandler = Normal e' s1
    ∧ on_paste e' s1
      = Normal e' (set_emitted [OnPaste {| paste_text := [99; 117; 116]%Z |}] s1).
Proof.
  refine (copy_then_paste exampleBrowser idleHandler (structuredEvent ∅) eq_refl _).
  discriminate.
Defined.

Lemma input_typed_text_witness :
  on_input exampleBrowser idleHandler
  = Normal tt
      (set_emitted [OnType {| text := [98%Z]; replaceCharCnt := 0 |}]
         (set_textAreaState
            (fromTextArea (_textAreaState idleHandler) (_textArea idleHandler))
            idleHandler)).
Proof.
  exact (input_typed_text exampleBrowser idleHandler eq_refl eq_refl eq_refl).
Defined.

Lemma input_while_composing_witness :
  on_input exampleBrowser composingHandler = Normal tt composingHandler.
Proof.
  exact (input_while_composing exampleBrowser composingHandler eq_refl).
Defined.

Lemma compositionupdate_chrome55_56_witness :
  on_compositionupdate chrome55Browser compositionOfWa composingHandler
  = Normal tt (set_compositionLocale (Some "ja"%string) composingHandler)
  ∧ ∃ d s',
      on_input chrome55Browser
        (stateOf (on_compositionupdate chrome55Browser compositionOfWa composingHandler))
      = Normal tt s'
      ∧ emitted s'
        = [OnType d; OnCompositionUpdate {| data := [12431%Z];
                                            locale := Some "ja"%string |}].
Proof.
  destruct (compositionupdate_chrome55_56 chrome55Browser composingHandler
              compositionOfWa eq_refl) as [Hupdate Hinput].
  split; [exact Hupdate|exact (Hinput eq_refl)].
Defined.

Lemma compositionend_while_composing_witness :
  on_compositionend exampleBrowser compositionOfWa composingHandler
  = Normal tt
      (set_emitted [OnType {| text := []; replaceCharCnt := 0 |}; OnCompositionEnd]
         (set_isDoingComposition false
            (set_textAreaState (fromText (_textAreaState composingHandler) [12431%Z])
               composingHandler))).
Proof.
  exact (compositionend_while_composing exampleBrowser composingHandler compositionOfWa
           eq_refl).
Defined.

Lemma composition_lifecycle_witness :
  ∃ d1 d2,
    emitted (run exampleBrowser
               [compositionstart noComposition; compositionupdate compositionOfWa;
                compositionend compositionOfWa] idleHandler)
    = [OnCompositionStart; OnType d1; OnCompositionUpdate compositionOfWa;
       OnType d2; OnCompositionEnd]
    ∧ _isDoingComposition
        (run exampleBrowser
           [compositionstart noComposition; compositionupdate compositionOfWa;
            compositionend compositionOfWa] idleHandler)
      = false.
Proof.
  exact (composition_lifecycle exampleBrowser idleHandler noComposition compositionOfWa
           compositionOfWa eq_refl eq_refl).
Defined.

Lemma paste_is_never_empty_witness :
  Forall pasteNotEmpty
    (emitted (run exampleBrowser
                [paste (structuredEvent {[ "text/plain"%string := hello ]});
                 paste (structuredEvent ∅); paste legacyEvent; input]
                idleHandler)).
Proof.
  apply (paste_is_never_empty exampleBrowser). apply Forall_nil_2.
Defined.

Lemma composition_update_follows_type_witness :
  updatesFollowType false
    (emitted (run chrome55Browser
                [compositionstart noComposition; compositionupdate compositionOfWa; input;
                 compositionend compositionOfWa] idleHandler)) = true.
Proof.
  exact (composition_update_follows_type chrome55Browser _ idleHandler eq_refl).
Defined.

Lemma handler_frame_witness :
  _textArea (run exampleBrowser
               [keydown {| keyCode := OtherKey 31; propagationStopped := false;
                           key_defaultPrevented := false |};
                input; timeout] idleHandler)
  = _textArea idleHandler
  ∧ emitted (run exampleBrowser
               [call_setHasFocus false; call_setCursorSelections (mkRange 2 3 2 5) [];
                call_focusTextArea] idleHandler) = []
  ∧ _nextCommand (run exampleBrowser [cut legacyEvent; call_focusTextArea]
                    pastePendingHandler) = ReadFromTextArea_Paste
  ∧ _isDoingComposition (run exampleBrowser [input; paste legacyEvent] composingHandler)
    = true.
Proof.
  split; [|split; [|split]].
  - exact (proj1 (proj2 (proj2 (handler_frame exampleBrowser
             [keydown {| keyCode := OtherKey 31; propagationStopped := false;
                         key_defaultPrevented := false |};
              input; timeout] idleHandler))) eq_refl).
  - exact (proj1 (proj1 (proj2 (proj2 (proj2 (handler_frame exampleBrowser
             [call_setHasFocus false; call_setCursorSelections (mkRange 2 3 2 5) [];
              call_focusTextArea] idleHandler)))) eq_refl)).
  - exact (proj1 (proj2 (handler_frame exampleBrowser
             [cut legacyEvent; call_focusTextArea] pastePendingHandler)) eq_refl).
  - exact (proj1 (handler_frame exampleBrowser [input; paste legacyEvent]
                    composingHandler) eq_refl).
Defined.

Lemma setHasFocus_idempotent_witness :
  ∃ s', setHasFocus exampleBrowser false idleHandler = Normal tt s'
        ∧ s' = set_hasFocus false idleHandler.
Proof.
  destruct (setHasFocus_idempotent exampleBrowser idleHandler false)
    as (s' & Hs' & _ & _ & Hlost).
  exists s'. split; [exact Hs'|]. exact (Hlost eq_refl).
Defined.

Lemma reseed_while_idle_witness :
  ∃ s', setCursorSelections iPadBrowser (mkRange 2 3 2 5) [] idleHandler = Normal tt s'
        ∧ _selection s' = mkRange 2 3 2 5
        ∧ emitted s' = []
        ∧ dom_value (_textArea s') = InputSnapshot.value (_textAreaState s')
        ∧ dom_value (_textArea s') = [].
Proof.
  destruct (reseed_while_idle iPadBrowser idleHandler (mkRange 2 3 2 5) [] eq_refl)
    as (s' & Hs' & Hsel & Hlog & Hval & Hipad).
  exists s'. repeat split; try assumption. exact (Hipad eq_refl).
Defined.
